(** * PySkCode tag plugins: code blocks, medias (image, youtube), collapse

    A shallow embedding of [skcode/tags/codeblocks.py], [skcode/tags/medias.py]
    and [skcode/tags/collapse.py], and the properties of their validation and
    rendering hooks.

    Python [str] values are Rocq strings whose characters stand for the code
    points below 256.  A Python [dict] of attributes is a [gmap string string].
    The hooks mutate one field of the node, [error_message]; they are written
    in a small state monad over the node, which also keeps the list of the
    messages assigned so far. *)

From Stdlib Require Import ZArith List String Ascii Bool Lia DecimalString.
From stdpp Require Import gmap strings.

Set Warnings "-register-all".

Local Open Scope Z_scope.

(** ** Python string primitives *)

Module Py.

Definition code (c : ascii) : N := N_of_ascii c.

Definition in_range (lo hi : N) (c : ascii) : bool :=
  ((lo <=? code c) && (code c <=? hi))%N.

(** [str.isspace] on one character, for the code points below 256. *)
Definition is_space (c : ascii) : bool :=
  in_range 9 13 c || in_range 28 32 c
  || (code c =? 133)%N || (code c =? 160)%N.

(** The line boundaries of [str.splitlines] below code point 256. *)
Definition is_linebreak (c : ascii) : bool :=
  in_range 10 13 c || in_range 28 30 c || (code c =? 133)%N.

Definition is_digit (c : ascii) : bool := in_range 48 57 c.
Definition is_upper (c : ascii) : bool := in_range 65 90 c.
Definition is_lower (c : ascii) : bool := in_range 97 122 c.
Definition is_ascii_alpha (c : ascii) : bool := is_upper c || is_lower c.

Definition digit_value (c : ascii) : Z := Z.of_N (code c) - 48.

(** Truth value of a string: [bool(s)]. *)
Definition truthy (s : string) : bool :=
  match s with EmptyString => false | String _ _ => true end.

Fixpoint lstrip_by (p : ascii -> bool) (s : string) : string :=
  match s with
  | EmptyString => EmptyString
  | String c r => if p c then lstrip_by p r else s
  end.

Fixpoint rstrip_by (p : ascii -> bool) (s : string) : string :=
  match s with
  | EmptyString => EmptyString
  | String c r =>
      match rstrip_by p r with
      | EmptyString => if p c then EmptyString else String c EmptyString
      | r' => String c r'
      end
  end.

(** [s.strip()] *)
Definition strip (s : string) : string := rstrip_by is_space (lstrip_by is_space s).

Fixpoint all_chars (p : ascii -> bool) (s : string) : bool :=
  match s with
  | EmptyString => true
  | String c r => p c && all_chars p r
  end.

Fixpoint has_char (c : ascii) (s : string) : bool :=
  match s with
  | EmptyString => false
  | String d r => Ascii.eqb c d || has_char c r
  end.

(** [s.split(sep)] for a one-character separator: never the empty list. *)
Fixpoint split (sep : ascii) (s : string) : list string :=
  match s with
  | EmptyString => [EmptyString]
  | String c r =>
      if Ascii.eqb c sep then EmptyString :: split sep r
      else match split sep r with
           | h :: t => String c h :: t
           | [] => [String c EmptyString]
           end
  end.

(** [s.splitlines()]: a final line break opens no further line, and a
    carriage return followed by a line feed is one boundary. *)
Fixpoint splitlines (s : string) : list string :=
  match s with
  | EmptyString => []
  | String c r =>
      if is_linebreak c then
        EmptyString ::
          match r with
          | String d r' =>
              if Ascii.eqb c "013" && Ascii.eqb d "010" then splitlines r'
              else splitlines r
          | EmptyString => []
          end
      else match splitlines r with
           | h :: t => String c h :: t
           | [] => [String c EmptyString]
           end
  end.

(** [sep.join(parts)] *)
Definition join (sep : string) (parts : list string) : string :=
  String.concat sep parts.

(** Decimal digits with single underscores allowed between two digits. *)
Fixpoint digits (acc : Z) (after_digit : bool) (s : string) : option Z :=
  match s with
  | EmptyString => if after_digit then Some acc else None
  | String c r =>
      if is_digit c then digits (10 * acc + digit_value c) true r
      else if Ascii.eqb c "_" && after_digit then
        match r with
        | String d _ => if is_digit d then digits acc false r else None
        | EmptyString => None
        end
      else None
  end.

(** [int(s)] in base ten; [None] stands for [ValueError].  Surrounding
    white space and one sign are accepted. *)
Definition int (s : string) : option Z :=
  match strip s with
  | String "-" r => option_map Z.opp (digits 0 false r)
  | String "+" r => digits 0 false r
  | t => digits 0 false t
  end.

(** ['{}'.format(z)] and ['{:d}'.format(z)] *)
Definition str_of_int (z : Z) : string := NilZero.string_of_int (Z.to_int z).

(** [s.partition(c)]: the text before and after the first [c], if any. *)
Fixpoint partition (c : ascii) (s : string) : option (string * string) :=
  match s with
  | EmptyString => None
  | String d r =>
      if Ascii.eqb c d then Some (EmptyString, r)
      else match partition c r with
           | Some (a, b) => Some (String d a, b)
           | None => None
           end
  end.

(** The longest prefix whose characters all fail [p], and the rest. *)
Fixpoint break (p : ascii -> bool) (s : string) : string * string :=
  match s with
  | EmptyString => (EmptyString, EmptyString)
  | String c r =>
      if p c then (EmptyString, s)
      else let '(a, b) := break p r in (String c a, b)
  end.

Definition lower_char (c : ascii) : ascii :=
  if is_upper c then ascii_of_N (code c + 32) else c.

Fixpoint lower (s : string) : string :=
  match s with
  | EmptyString => EmptyString
  | String c r => String (lower_char c) (lower r)
  end.

Fixpoint remove_chars (p : ascii -> bool) (s : string) : string :=
  match s with
  | EmptyString => EmptyString
  | String c r => if p c then remove_chars p r else String c (remove_chars p r)
  end.

Definition startswith (pre s : string) : bool := String.prefix pre s.

(** [posixpath.basename(p)]: what follows the last slash. *)
Fixpoint basename (p : string) : string :=
  match p with
  | EmptyString => EmptyString
  | String c r => if has_char "/" r then basename r
                  else if Ascii.eqb c "/" then r else p
  end.

(** [' ' * n] *)
Fixpoint spaces (n : nat) : string :=
  match n with
  | O => EmptyString
  | S n' => String " " (spaces n')
  end.

(** [s.ljust(width)] *)
Definition ljust (width : nat) (s : string) : string :=
  s +:+ spaces (width - String.length s).

(** [s.replace(c, by)] for a one-character [c]. *)
Fixpoint replace_char (c : ascii) (by_ : string) (s : string) : string :=
  match s with
  | EmptyString => EmptyString
  | String d r =>
      if Ascii.eqb d c then by_ +:+ replace_char c by_ r
      else String d (replace_char c by_ r)
  end.

(** [enumerate(xs, start=start)] *)
Fixpoint enumerate {A : Type} (start : Z) (xs : list A) : list (Z * A) :=
  match xs with
  | [] => []
  | x :: rest => (start, x) :: enumerate (start + 1) rest
  end.

End Py.

(** ** URL helpers of the Python standard library *)

Module Url.

Definition hex_digit (n : N) : ascii :=
  if (n <? 10)%N then ascii_of_N (48 + n) else ascii_of_N (55 + n).

(** One byte as [%XX], upper-case hexadecimal. *)
Definition percent (b : N) : string :=
  String "%" (String (hex_digit (b / 16)) (String (hex_digit (b mod 16)) EmptyString)).

Definition always_safe (c : ascii) : bool :=
  Py.is_ascii_alpha c || Py.is_digit c
  || Ascii.eqb c "_" || Ascii.eqb c "." || Ascii.eqb c "-" || Ascii.eqb c "~".

(** [urllib.parse.quote_plus]: a space becomes a plus sign, the unreserved
    characters stay, every other character is the percent-encoding of its
    UTF-8 bytes. *)
Fixpoint quote_plus (s : string) : string :=
  match s with
  | EmptyString => EmptyString
  | String c r =>
      (if Ascii.eqb c " " then "+"
       else if always_safe c then String c EmptyString
       else if (Py.code c <? 128)%N then percent (Py.code c)
       else percent (192 + Py.code c / 64) +:+ percent (128 + Py.code c mod 64))
      +:+ quote_plus r
  end.

Definition scheme_char (c : ascii) : bool :=
  Py.is_ascii_alpha c || Py.is_digit c
  || Ascii.eqb c "+" || Ascii.eqb c "-" || Ascii.eqb c ".".

Definition c0_control_or_space (c : ascii) : bool := (Py.code c <=? 32)%N.

Definition unsafe_url_byte (c : ascii) : bool :=
  Ascii.eqb c "009" || Ascii.eqb c "013" || Ascii.eqb c "010".

Definition netloc_delim (c : ascii) : bool :=
  Ascii.eqb c "/" || Ascii.eqb c "?" || Ascii.eqb c "#".

Record SplitResult := mkSplitResult {
  scheme : string; netloc : string; path : string;
  query : string; fragment : string }.

(** The scheme of [url] and what follows its colon, when the text before
    the first colon is a scheme. *)
Definition split_scheme (url : string) : string * string :=
  match Py.partition ":" url with
  | Some (String c pre, post) =>
      if Py.is_ascii_alpha c && Py.all_chars scheme_char (String c pre)
      then (Py.lower (String c pre), post)
      else (EmptyString, url)
  | _ => (EmptyString, url)
  end.

Definition bracketed_host (netloc : string) : string :=
  match Py.partition "[" netloc with
  | Some (_, after) =>
      match Py.partition "]" after with
      | Some (host, _) => host
      | None => after
      end
  | None => EmptyString
  end.

(** [urllib.parse.urlsplit]; [None] stands for [ValueError].  The check of
    a bracketed host (an IPv6 or IPvFuture literal) is the argument
    [check_bracketed_host]. *)
Definition urlsplit (check_bracketed_host : string -> bool) (url : string)
  : option SplitResult :=
  let url := Py.lstrip_by c0_control_or_space url in
  let url := Py.remove_chars unsafe_url_byte url in
  let '(scheme, url) := split_scheme url in
  let '(netloc, url) :=
    match url with
    | String "/" (String "/" rest) => Py.break netloc_delim rest
    | _ => (EmptyString, url)
    end in
  let lb := Py.has_char "[" netloc in
  let rb := Py.has_char "]" netloc in
  if xorb lb rb then None
  else if lb && rb && negb (check_bracketed_host (bracketed_host netloc)) then None
  else
    let '(url, fragment) :=
      match Py.partition "#" url with
      | Some (a, b) => (a, b)
      | None => (url, EmptyString)
      end in
    let '(url, query) :=
      match Py.partition "?" url with
      | Some (a, b) => (a, b)
      | None => (url, EmptyString)
      end in
    Some (mkSplitResult scheme netloc url query fragment).

End Url.


(** ** The tree node and the state of a hook *)

(** A node of the document tree, with the fields the tag hooks read and
    write.  [relative_url_base] is the value of
    [get_relative_url_base(self.root_tree_node)], which no hook changes. *)
Inductive TreeNode := mkTreeNode {
  name : string;
  attrs : gmap string string;
  content : string;
  children : list TreeNode;
  error_message : string;
  relative_url_base : string }.

Definition with_error (msg : string) (n : TreeNode) : TreeNode :=
  mkTreeNode (name n) (attrs n) (content n) (children n) msg (relative_url_base n).

(** Modelled from the spec: [TreeNode.get_raw_content] of [skcode/etree.py],
    which is not among the sources: the raw text content of the node followed
    by the raw text of its children, in order. *)
Fixpoint get_raw_content (n : TreeNode) : string :=
  content n +:+ String.concat EmptyString (List.map get_raw_content (children n)).

(** Modelled from the spec: [TreeNode.get_attribute_value] of
    [skcode/etree.py], which is not among the sources: the first non-empty
    value among the attributes [names], where the empty name stands for the
    name of the tag itself, and [default] when there is none. *)
Fixpoint get_attribute_value (n : TreeNode) (names : list string) (default : string)
  : string :=
  match names with
  | [] => default
  | a :: rest =>
      let key := if Py.truthy a then a else name n in
      match attrs n !! key with
      | Some (String c v) => String c v
      | _ => get_attribute_value n rest default
      end
  end.

(** The node a hook runs on, and the messages assigned to its
    [error_message] so far, oldest first. *)
Record State := mkState { self : TreeNode; assigned : list string }.

Definition M (A : Type) : Type := State -> A * State.

Definition ret {A : Type} (a : A) : M A := fun s => (a, s).

Definition bind {A B : Type} (m : M A) (k : A -> M B) : M B :=
  fun s => let '(a, s') := m s in k a s'.

Notation "x <- m ;; k" := (bind m (fun x => k))
  (at level 100, m at next level, right associativity).
Notation "m ;;; k" := (bind m (fun _ => k))
  (at level 100, right associativity).

(** Read the node. *)
Definition asks {A : Type} (f : TreeNode -> A) : M A := fun s => (f (self s), s).

(** [self.error_message = msg] *)
Definition set_error_message (msg : string) : M unit :=
  fun s => (tt, mkState (with_error msg (self s)) (assigned s ++ [msg])).

(** [for x in xs: acc = body(acc, x)] *)
Fixpoint for_each {A B : Type} (xs : list A) (acc : B) (body : B -> A -> M B) : M B :=
  match xs with
  | [] => ret acc
  | x :: rest => acc' <- body acc x ;; for_each rest acc' body
  end.

(** [self.attrs.get(key, '')] *)
Definition attr_or_empty (key : string) : M string :=
  asks (fun n => default EmptyString (attrs n !! key)).

(** The node left by a hook started on [n]. *)
Definition exec {A : Type} (m : M A) (n : TreeNode) : TreeNode :=
  self (snd (m (mkState n []))).

(** The value a hook returns when started on [n]. *)
Definition eval {A : Type} (m : M A) (n : TreeNode) : A :=
  fst (m (mkState n [])).

(** The messages a hook assigns when started on [n], oldest first. *)
Definition trace {A : Type} (m : M A) (n : TreeNode) : list string :=
  assigned (snd (m (mkState n []))).

(** [gettext.gettext] with no translation catalogue installed. *)
Definition gettext (msg : string) : string := msg.

(** [_('{} is not a number').format(what)] *)
Definition not_a_number (what : string) : string :=
  what +:+ gettext " is not a number".

(** Modelled from the spec: [TreeNode.sanitize_node] of [skcode/etree.py],
    which is not among the sources: the validation hook of the base class
    does nothing. *)
Definition TreeNode_sanitize_node (breadcrumb : list TreeNode) : M unit := ret tt.

Definition dq : string := String "034" EmptyString.
Definition nl : string := String "010" EmptyString.

(** ** Collaborators of the tag plugins *)

(** The options given to [HtmlFormatter]. *)
Record FormatterOptions (Style : Type) := mkFormatterOptions {
  fo_style : Style;
  fo_linenos : option string;
  fo_hl_lines : list Z;
  fo_linenostart : Z;
  fo_noclasses : bool;
  fo_lineanchors : string;
  fo_anchorlinenos : bool }.

Arguments mkFormatterOptions {Style}.

(** What the hooks call and do not define: the escaping functions of [html],
    the helpers of [skcode/tools.py], Pygments, and two functions of
    [urllib.parse].  A lookup of Pygments yields [None] where it raises
    [ClassNotFound]. *)
Class Services := {
  Lexer : Type;
  Style : Type;
  escape_html : string -> string;
  unescape_html_entities : string -> string;
  sanitize_url : string -> option (list string) -> string -> string;
  slugify : string -> string;
  get_lexer_by_name : string -> option Z -> option Lexer;
  get_style_by_name : string -> option Style;
  highlight : string -> Lexer -> FormatterOptions Style -> string;
  parse_qs : string -> gmap string (list string);
  check_bracketed_host : string -> bool }.

(** ** Code blocks: [skcode/tags/codeblocks.py] *)

Module CodeBlock.

(** What a subclass of [CodeBlockTreeNode] may set: the tag names and, for
    a class made by [generate_fixed_code_block_type_cls], the language. *)
Record Class := mkClass {
  canonical_tag_name : string;
  alias_tag_names : list string;
  language_name : option string }.

Definition CodeBlockTreeNode : Class := mkClass "code" [] None.

(** [generate_fixed_code_block_type_cls]; [None] where its assertion fails. *)
Definition generate_fixed_code_block_type_cls
  (language : string) (canonical : option string) (aliases : option (list string))
  : option Class :=
  if Py.truthy language then
    Some (mkClass
            (match canonical with
             | Some (String c r) => String c r
             | _ => language
             end)
            (match aliases with
             | Some (a :: l) => a :: l
             | _ => []
             end)
            (Some language))
  else None.

Definition tab_size : Z := 4.
Definition pygments_css_style_name : string := "default".
Definition display_line_numbers : bool := true.
Definition default_language_name : string := "text".
Definition language_attr_name : string := "language".
Definition hl_lines_attr_name : string := "hl_lines".
Definition line_start_num_attr_name : string := "linenostart".
Definition filename_attr_name : string := "filename".
Definition source_link_attr_name : string := "src".
Definition figure_id_attr_name : string := "id".
Definition wrapping_div_class_name : string := "codetable".

Definition wrapping_div_html_template (class_name source_code : string) : string :=
  "<div class=" +:+ dq +:+ class_name +:+ dq +:+ ">" +:+ nl
  +:+ "    " +:+ source_code +:+ nl
  +:+ "</div>".

Definition source_caption_html_template (what : string) : string :=
  "Source : " +:+ what.

Definition source_link_html_template (src_link extra_args caption : string) : string :=
  "<a href=" +:+ dq +:+ src_link +:+ dq +:+ extra_args
  +:+ " target=" +:+ dq +:+ "_blank" +:+ dq +:+ ">" +:+ caption +:+ " "
  +:+ "<i class=" +:+ dq +:+ "fa fa-link" +:+ dq
  +:+ " aria-hidden=" +:+ dq +:+ "true" +:+ dq +:+ "></i></a>".

Definition code_html_template (figure_id source_code caption : string) : string :=
  "<div class=" +:+ dq +:+ "panel panel-default" +:+ dq
  +:+ " id=" +:+ dq +:+ figure_id +:+ dq +:+ ">" +:+ nl
  +:+ "    <div class=" +:+ dq +:+ "panel-body" +:+ dq +:+ ">" +:+ nl
  +:+ "        " +:+ source_code +:+ nl
  +:+ "    </div>" +:+ nl
  +:+ "    <div class=" +:+ dq +:+ "panel-footer" +:+ dq +:+ ">" +:+ nl
  +:+ "        " +:+ caption +:+ nl
  +:+ "    </div>" +:+ nl
  +:+ "</div>".

Definition code_only_html_template (figure_id source_code : string) : string :=
  "<a id=" +:+ dq +:+ figure_id +:+ dq +:+ "></a>" +:+ nl +:+ source_code.

(** One turn of the loop of [get_highlight_lines] on the piece [line_num]. *)
Definition highlight_line (line_nums : list Z) (line_num : string) : M (list Z) :=
  let line_num := Py.strip line_num in
  if Py.truthy line_num then
    match Py.int line_num with
    | Some z =>
        if 0 <=? z then ret (line_nums ++ [z])
        else set_error_message (gettext "Line number must be positive") ;;;
             ret line_nums
    | None =>
        set_error_message (not_a_number line_num) ;;;
        ret line_nums
    end
  else ret line_nums.

Definition get_highlight_lines : M (list Z) :=
  highlight_lines <- attr_or_empty hl_lines_attr_name ;;
  if Py.truthy highlight_lines then
    for_each (Py.split "," highlight_lines) [] highlight_line
  else ret [].

Definition get_start_line_number : M Z :=
  first_line_number <- attr_or_empty line_start_num_attr_name ;;
  if Py.truthy first_line_number then
    match Py.int first_line_number with
    | Some line_num =>
        if 0 <=? line_num then ret line_num
        else set_error_message (gettext "Line number must be positive") ;;;
             ret 1
    | None =>
        set_error_message (not_a_number first_line_number) ;;;
        ret 1
    end
  else ret 1.

(** [while lines and not lines[0].strip(): lines.pop(0)] *)
Fixpoint pop_leading_blank (lines : list string) : list string :=
  match lines with
  | [] => []
  | l :: rest => if Py.truthy (Py.strip l) then lines else pop_leading_blank rest
  end.

(** [while lines and not lines[-1].strip(): lines.pop()], with one unit of
    [fuel] for each turn of the loop. *)
Fixpoint pop_trailing_blank (fuel : nat) (lines : list string) : list string :=
  match fuel with
  | O => lines
  | S fuel' =>
      match lines with
      | [] => lines
      | _ :: _ =>
          if Py.truthy (Py.strip (List.last lines EmptyString)) then lines
          else pop_trailing_blank fuel' (removelast lines)
      end
  end.

(** [get_cleaned_content(splitlines=True)] on the content [text]. *)
Definition cleaned_lines (text : string) : list string :=
  let lines := Py.splitlines text in
  let lines := pop_leading_blank lines in
  pop_trailing_blank (length lines) lines.

Definition get_cleaned_content_lines : M (list string) :=
  asks (fun n => cleaned_lines (content n)).

(** [get_cleaned_content()] *)
Definition get_cleaned_content : M string :=
  asks (fun n => Py.join nl (cleaned_lines (content n))).

Section Hooks.
Context `{Services}.
Variable cls : Class.

Definition get_language_name : M string :=
  match language_name cls with
  | Some fixed => ret fixed
  | None =>
      asks (fun n => unescape_html_entities
                       (get_attribute_value n [EmptyString; language_attr_name]
                          default_language_name))
  end.

Definition get_filename : M string :=
  filename <- attr_or_empty filename_attr_name ;;
  ret (unescape_html_entities filename).

Definition get_source_link_url : M string :=
  src_link_url <- attr_or_empty source_link_attr_name ;;
  relative_url_base <- asks relative_url_base ;;
  ret (sanitize_url src_link_url None relative_url_base).

Definition get_figure_id : M string :=
  figure_id <- attr_or_empty figure_id_attr_name ;;
  ret (slugify figure_id).

Definition sanitize_node (breadcrumb : list TreeNode) : M unit :=
  TreeNode_sanitize_node breadcrumb ;;;
  get_highlight_lines ;;;
  get_start_line_number ;;;
  language <- get_language_name ;;
  if Py.truthy language then
    match get_lexer_by_name language None with
    | Some _ => ret tt
    | None => set_error_message (gettext "Unknown language")
    end
  else ret tt.

(** The part of [render_html] that follows the choice of the lexer. *)
Definition render_with (lexer : Lexer) (figure_id : string) (force_rel_nofollow : bool)
  : M (option string) :=
  let lineanchors := figure_id in
  let anchorlinenos := Py.truthy figure_id in
  match get_style_by_name pygments_css_style_name with
  | None => ret None
  | Some style =>
      hl_lines <- get_highlight_lines ;;
      linenostart <- get_start_line_number ;;
      let formatter :=
        mkFormatterOptions style
          (if display_line_numbers then Some "table" else None)
          hl_lines linenostart true lineanchors anchorlinenos in
      cleaned <- get_cleaned_content ;;
      let source_code := highlight cleaned lexer formatter in
      let source_code :=
        wrapping_div_html_template wrapping_div_class_name source_code in
      src_filename <- get_filename ;;
      src_link_url <- get_source_link_url ;;
      if Py.truthy src_filename || Py.truthy src_link_url then
        let caption :=
          source_caption_html_template
            (if Py.truthy src_filename then escape_html src_filename
             else src_link_url) in
        let caption :=
          if Py.truthy src_link_url then
            source_link_html_template src_link_url
              (if force_rel_nofollow then " rel=" +:+ dq +:+ "nofollow" +:+ dq
               else EmptyString)
              caption
          else caption in
        ret (Some (code_html_template figure_id source_code caption))
      else if Py.truthy figure_id then
        ret (Some (code_only_html_template figure_id source_code))
      else ret (Some source_code)
  end.

(** [render_html]; [None] where the exception [ClassNotFound] leaves it:
    the lexer of the language, or the lexer of the default language when
    that lookup raises [ClassNotFound]. *)
Definition render_html (inner_html : string) (force_rel_nofollow : bool)
  : M (option string) :=
  figure_id <- get_figure_id ;;
  language <- get_language_name ;;
  match get_lexer_by_name language (Some tab_size) with
  | Some lexer => render_with lexer figure_id force_rel_nofollow
  | None =>
      match get_lexer_by_name default_language_name (Some tab_size) with
      | Some lexer => render_with lexer figure_id force_rel_nofollow
      | None => ret None
      end
  end.

(** One turn of the loop of [render_text]: the line [line], numbered
    [num], as it is listed. *)
Definition text_line (hl_lines : list Z) (entry : Z * string) : string :=
  let '(num, line) := entry in
  let line := Py.replace_char "009" (Py.spaces (Z.to_nat tab_size)) line in
  let line_prefix :=
    if existsb (Z.eqb num) hl_lines then Py.str_of_int num +:+ ">"
    else Py.str_of_int num +:+ "." in
  Py.ljust 4 line_prefix +:+ " " +:+ line.

(** The list [lines] of [render_text] when it is joined. *)
Definition render_text_lines (inner_text : string) : M (list string) :=
  figure_id <- get_figure_id ;;
  src_filename <- get_filename ;;
  src_link_url <- get_source_link_url ;;
  start_line_number <- get_start_line_number ;;
  hl_lines <- get_highlight_lines ;;
  cleaned <- get_cleaned_content_lines ;;
  let lines := List.map (text_line hl_lines) (Py.enumerate start_line_number cleaned) in
  let figure_extra :=
    if Py.truthy figure_id then " [#" +:+ figure_id +:+ "]" else EmptyString in
  let lines :=
    if Py.truthy src_filename && Py.truthy src_link_url then
      lines ++ ["Source : " +:+ src_filename +:+ " (" +:+ src_link_url +:+ ")"
                +:+ figure_extra]
    else if Py.truthy src_filename then
      lines ++ ["Source : " +:+ src_filename +:+ figure_extra]
    else if Py.truthy src_link_url then
      lines ++ ["Source : " +:+ src_link_url +:+ figure_extra]
    else lines in
  ret (lines ++ [EmptyString]).

Definition render_text (inner_text : string) : M string :=
  lines <- render_text_lines inner_text ;;
  ret (Py.join nl lines).

End Hooks.

End CodeBlock.

(** [x in xs] for a tuple or a set of strings. *)
Definition mem (x : string) (xs : list string) : bool := existsb (String.eqb x) xs.

(** ** Images: [ImageTreeNode] of [skcode/tags/medias.py] *)

Module Image.

Definition canonical_tag_name : string := "img".
Definition alt_attr_name : string := "alt".
Definition width_attr_name : string := "width".
Definition height_attr_name : string := "height".
Definition source_link_attr_name : string := "src".
Definition allowed_schemes : list string := ["http"; "https"].

Definition html_render_template (src_link extra_args : string) : string :=
  "<img src=" +:+ dq +:+ src_link +:+ dq +:+ extra_args +:+ " />".

(** The body shared by [get_img_width] and [get_img_height]: the attribute
    [key] as a positive number, or zero. *)
Definition get_img_size (key must_be_positive : string) : M Z :=
  size <- asks (fun n => attrs n !! key) ;;
  match size with
  | Some (String c r) =>
      match Py.int (String c r) with
      | Some z =>
          if 0 <? z then ret z
          else set_error_message (gettext must_be_positive) ;;; ret 0
      | None => set_error_message (not_a_number (String c r)) ;;; ret 0
      end
  | _ => ret 0
  end.

Definition get_img_width : M Z := get_img_size width_attr_name "Width must be positive".

Definition get_img_height : M Z := get_img_size height_attr_name "Height must be positive".

Section Hooks.
Context `{Services}.

Definition get_image_src_link : M string :=
  src_attr <- asks (fun n => attrs n !! source_link_attr_name) ;;
  match src_attr with
  | Some (String c r) => ret (String c r)
  | _ =>
      relative_url_base <- asks relative_url_base ;;
      raw <- asks get_raw_content ;;
      let src_link := Py.strip raw in
      ret (sanitize_url src_link (Some allowed_schemes) relative_url_base)
  end.

Definition get_alt_text : M string :=
  alt_text <- attr_or_empty alt_attr_name ;;
  ret (unescape_html_entities alt_text).

Definition sanitize_node (breadcrumb : list TreeNode) : M unit :=
  TreeNode_sanitize_node breadcrumb ;;;
  get_img_width ;;;
  get_img_height ;;;
  src_link <- get_image_src_link ;;
  if Py.truthy src_link then ret tt
  else set_error_message (gettext "Missing or erroneous source URL").

Definition render_html (inner_html : string) : M string :=
  src_link <- get_image_src_link ;;
  alt_text <- get_alt_text ;;
  let extra_attrs :=
    if Py.truthy alt_text then " alt=" +:+ dq +:+ escape_html alt_text +:+ dq
    else EmptyString in
  img_width <- get_img_width ;;
  let extra_attrs :=
    if negb (img_width =? 0)
    then extra_attrs +:+ " width=" +:+ dq +:+ Py.str_of_int img_width +:+ dq
    else extra_attrs in
  img_height <- get_img_height ;;
  let extra_attrs :=
    if negb (img_height =? 0)
    then extra_attrs +:+ " height=" +:+ dq +:+ Py.str_of_int img_height +:+ dq
    else extra_attrs in
  ret (html_render_template src_link extra_attrs).

Definition render_text (inner_text : string) : M string :=
  src_link <- get_image_src_link ;;
  if Py.truthy src_link then
    alt_text <- get_alt_text ;;
    ret (if Py.truthy alt_text then src_link +:+ " (" +:+ alt_text +:+ ")"
         else src_link)
  else ret inner_text.

End Hooks.

End Image.

(** ** Youtube embeds: [YoutubeTreeNode] of [skcode/tags/medias.py] *)

Module Youtube.

Definition canonical_tag_name : string := "youtube".
Definition default_iframe_width : Z := 560.
Definition default_iframe_height : Z := 315.
Definition allowed_domains : list string := ["www.youtube.com"; "youtube.com"; "youtu.be"].
Definition video_id_query_arg_name : string := "v".
Definition video_id_in_path_domains : list string := ["youtu.be"].

Definition integration_html_template (width height video_id : string) : string :=
  "<div class=" +:+ dq +:+ "embed-container center-block" +:+ dq +:+ ">" +:+ nl
  +:+ "        <div class=" +:+ dq +:+ "embed-video" +:+ dq +:+ ">" +:+ nl
  +:+ "            <iframe width=" +:+ dq +:+ width +:+ dq
  +:+ " height=" +:+ dq +:+ height +:+ dq
  +:+ " src=" +:+ dq +:+ "https://www.youtube.com/embed/" +:+ video_id +:+ dq
  +:+ " frameborder=" +:+ dq +:+ "0" +:+ dq
  +:+ " allowfullscreen=" +:+ dq +:+ "true" +:+ dq +:+ "></iframe>" +:+ nl
  +:+ "        </div>" +:+ nl
  +:+ "    </div>" +:+ nl
  +:+ "    ".

Definition text_link_format (video_id : string) : string :=
  "https://youtu.be/" +:+ video_id.

Section Hooks.
Context `{Services}.

(** The video identifier named by the URL [url], the raw content of the
    node with its surrounding white space removed. *)
Definition video_id_of_url (url : string) : string :=
  if Py.truthy url then
    match Url.urlsplit check_bracketed_host url with
    | None => EmptyString
    | Some parts =>
        if negb (mem (Url.netloc parts) allowed_domains) then EmptyString
        else if negb (mem (Url.netloc parts) video_id_in_path_domains) then
          if Py.truthy (Url.query parts) then
            match parse_qs (Url.query parts) !! video_id_query_arg_name with
            | Some (first :: _) => Py.strip first
            | _ => EmptyString
            end
          else EmptyString
        else
          if negb (Py.truthy (Url.path parts))
             || negb (Py.startswith "/" (Url.path parts))
          then EmptyString
          else
            let video_id :=
              Py.basename (Py.rstrip_by (Ascii.eqb "/") (Url.path parts)) in
            if Py.truthy video_id then Py.strip video_id else EmptyString
    end
  else EmptyString.

Definition get_youtube_video_id : M string :=
  asks (fun n => video_id_of_url (Py.strip (get_raw_content n))).

Definition sanitize_node (breadcrumb : list TreeNode) : M unit :=
  TreeNode_sanitize_node breadcrumb ;;;
  video_id <- get_youtube_video_id ;;
  if Py.truthy video_id then ret tt
  else set_error_message (gettext "Missing or erroneous video URL").

Definition render_html (inner_html : string) : M string :=
  video_id <- get_youtube_video_id ;;
  ret (if Py.truthy video_id
       then integration_html_template (Py.str_of_int default_iframe_width)
              (Py.str_of_int default_iframe_height) (Url.quote_plus video_id)
       else inner_html).

Definition render_text (inner_text : string) : M string :=
  video_id <- get_youtube_video_id ;;
  ret (if Py.truthy video_id then text_link_format (Url.quote_plus video_id)
       else inner_text).

End Hooks.

End Youtube.

(** ** Collapsible sections: [skcode/tags/collapse.py] *)

Module Collapse.

(** A subclass of [CollapseBaseTreeNode] sets the tag names. *)
Record Class := mkClass {
  canonical_tag_name : string;
  alias_tag_names : list string }.

Definition CollapseTreeNode : Class := mkClass "collapse" [].
Definition Collapse2TreeNode : Class := mkClass "collapse2" [].

Definition html_render_template (name inner_html : string) : string :=
  "<div class=" +:+ dq +:+ name +:+ dq +:+ ">" +:+ inner_html +:+ "</div>" +:+ nl.

Definition render_html (cls : Class) (inner_html : string) : M string :=
  ret (html_render_template (canonical_tag_name cls) inner_html).

Definition render_text (cls : Class) (inner_text : string) : M string :=
  ret inner_text.

End Collapse.

(** ** A small instance of the collaborators, to run the hooks on examples *)

Module Std.

(** [html.escape] with [quote=True]. *)
Fixpoint html_escape (s : string) : string :=
  match s with
  | EmptyString => EmptyString
  | String c r =>
      (if Ascii.eqb c "&" then "&amp;"
       else if Ascii.eqb c "<" then "&lt;"
       else if Ascii.eqb c ">" then "&gt;"
       else if Ascii.eqb c "034" then "&quot;"
       else if Ascii.eqb c "'" then "&#x27;"
       else String c EmptyString) +:+ html_escape r
  end.

Definition default_allowed_schemes : list string := ["http"; "https"; "ftp"].

(** Modelled from the spec: [sanitize_url] of [skcode/tools.py], which is
    not among the sources: a URL whose scheme is outside the allow-list
    yields the empty string, a URL without a scheme is resolved against the
    base, and what is kept is escaped. *)
Definition url_sanitizer (url : string) (allowed : option (list string)) (base : string)
  : string :=
  if Py.truthy url then
    match Url.urlsplit (fun _ => true) url with
    | None => EmptyString
    | Some parts =>
        if Py.truthy (Url.scheme parts) then
          if mem (Url.scheme parts) (default default_allowed_schemes allowed)
          then html_escape url else EmptyString
        else html_escape (base +:+ url)
    end
  else EmptyString.

Definition known_lexers : list string := ["text"; "python"; "c"].

Definition lexer_by_name (alias : string) (tabsize : option Z) : option string :=
  if mem alias known_lexers then Some alias else None.

Definition style_by_name (style : string) : option string :=
  if String.eqb style "default" then Some style else None.

Definition highlighter (code : string) (lexer : string) (fo : FormatterOptions string)
  : string :=
  "<pre>" +:+ html_escape code +:+ "</pre>".

(** The pairs [key=value] of a query string, without percent-decoding. *)
Definition query_args (qs : string) : gmap string (list string) :=
  fold_left
    (fun (m : gmap string (list string)) (pair : string) =>
       match Py.partition "=" pair with
       | Some (k, String c v) =>
           <[k := (default [] (m !! k) ++ [String c v])%list]> m
       | _ => m
       end)
    (Py.split "&" qs) ∅.

#[export] Instance services : Services := {|
  Lexer := string;
  Style := string;
  escape_html := html_escape;
  unescape_html_entities := fun s => s;
  sanitize_url := url_sanitizer;
  slugify := Py.lower;
  get_lexer_by_name := lexer_by_name;
  get_style_by_name := style_by_name;
  highlight := highlighter;
  parse_qs := query_args;
  check_bracketed_host := fun _ => true |}.

End Std.

(** Nodes used as examples. *)
Definition node (tag : string) (attributes : list (string * string)) (text : string)
  : TreeNode :=
  mkTreeNode tag (list_to_map attributes) text [] EmptyString EmptyString.

(** ** Notions used to state the properties *)

(** A line that is empty or holds white space only. *)
Definition blank (line : string) : bool := Py.all_chars Py.is_space line.

(** The tokens of a comma-separated value: its pieces without their
    surrounding white space, the empty ones left out. *)
Definition tokens (value : string) : list string :=
  List.filter Py.truthy (List.map Py.strip (Py.split "," value)).

Definition positive_integer (t : string) : Prop := exists z, Py.int t = Some z /\ 0 < z.
Definition negative_number (t : string) : Prop := exists z, Py.int t = Some z /\ z < 0.
Definition non_numeric (t : string) : Prop := Py.int t = None.

(** The positive integers among the tokens [ts], in order. *)
Definition positive_integers (ts : list string) : list Z :=
  omap (fun t => match Py.int t with
                 | Some z => if 0 <? z then Some z else None
                 | None => None
                 end) ts.

(** The message for a token that is a negative number or not a number. *)
Definition rejection (t : string) : option string :=
  match Py.int t with
  | Some z => if z <? 0 then Some "Line number must be positive" else None
  | None => Some (t +:+ " is not a number")
  end.

(** The lines [lines] do not start with a blank line. *)
Definition starts_non_blank (lines : list string) : Prop :=
  match lines with
  | [] => True
  | l :: _ => blank l = false
  end.

(** The lines [lines] do not end with a blank line. *)
Definition ends_non_blank (lines : list string) : Prop :=
  lines = [] \/ blank (List.last lines EmptyString) = false.

(** The numbers the loop appends: the tokens that are numbers at least zero. *)
Definition accepted_numbers (ts : list string) : list Z :=
  omap (fun t => match Py.int t with
                 | Some z => if 0 <=? z then Some z else None
                 | None => None
                 end) ts.

(** The messages for the rejected tokens among [ts], one each, in order. *)
Definition rejections (ts : list string) : list string := omap rejection ts.


(** The characters [quote_plus] lets through or produces. *)
Definition url_safe (c : ascii) : bool :=
  Url.always_safe c || Ascii.eqb c "+" || Ascii.eqb c "%".

(** The text of a numeric HTML attribute: nothing, or the attribute with a
    value made of decimal digits. *)
Definition numeric_attr (attr part : string) : Prop :=
  part = EmptyString
  \/ exists value, Py.truthy value = true /\ Py.all_chars Py.is_digit value = true
                   /\ part = " " +:+ attr +:+ "=" +:+ dq +:+ value +:+ dq.

(** The message [sanitize_node] of a code block assigns for the language. *)
Definition language_messages `{Services} (cls : CodeBlock.Class) (n : TreeNode)
  : list string :=
  let language := eval (CodeBlock.get_language_name cls) n in
  if Py.truthy language then
    match get_lexer_by_name language None with
    | Some _ => []
    | None => ["Unknown language"]
    end
  else [].







(** A node without its error annotation. *)
Definition erase (n : TreeNode) : TreeNode := with_error EmptyString n.

(** The node after the assignments [w] to its [error_message]. *)
Definition write_all (w : list string) (n : TreeNode) : TreeNode :=
  with_error (List.last w (error_message n)) n.

(** A hook that reads nothing of the error annotation and of the messages
    assigned before it: started in any state, it returns what it returns on
    the erased node and assigns the same messages. *)
Definition Oblivious {A : Type} (m : M A) : Prop :=
  forall s,
    m s = (eval m (erase (self s)),
           mkState (write_all (trace m (erase (self s))) (self s))
                   (assigned s ++ trace m (erase (self s)))).

(** ** The state monad: hooks that only assign error messages *)

Lemma with_error_same n : with_error (error_message n) n = n.
Proof. by destruct n. Qed.

Lemma with_error_twice a b n : with_error a (with_error b n) = with_error a n.
Proof. by destruct n. Qed.

Lemma erase_with_error a n : erase (with_error a n) = erase n.
Proof. apply with_error_twice. Qed.

Lemma erase_write_all w n : erase (write_all w n) = erase n.
Proof. apply erase_with_error. Qed.

Lemma erase_erase n : erase (erase n) = erase n.
Proof. apply erase_with_error. Qed.

Lemma write_all_nil n : write_all [] n = n.
Proof. apply with_error_same. Qed.

Lemma last_app_default {A : Type} (w1 w2 : list A) (d : A) :
  List.last (w1 ++ w2) d = List.last w2 (List.last w1 d).
Proof.
  revert w1. induction w2 as [|x w2 IH] using rev_ind; intros w1.
  - by rewrite app_nil_r.
  - by rewrite app_assoc, !last_last.
Qed.

Lemma write_all_app w1 w2 n : write_all (w1 ++ w2) n = write_all w2 (write_all w1 n).
Proof.
  unfold write_all. rewrite last_app_default. destruct n; reflexivity.
Qed.

Lemma write_all_idem w n : write_all w (write_all w n) = write_all w n.
Proof.
  rewrite <- write_all_app. unfold write_all. f_equal.
  rewrite last_app_default. destruct w as [|x w] using rev_ind; [done|].
  by rewrite !last_last.
Qed.

Lemma oblivious_ret {A : Type} (a : A) : Oblivious (ret a).
Proof.
  intros [n l]. unfold ret, eval, trace. simpl.
  by rewrite write_all_nil, app_nil_r.
Qed.

Lemma oblivious_asks {A : Type} (f : TreeNode -> A) :
  (forall e n, f (with_error e n) = f n) -> Oblivious (asks f).
Proof.
  intros Hf [n l]. unfold asks, eval, trace, erase. simpl.
  by rewrite Hf, write_all_nil, app_nil_r.
Qed.

Lemma oblivious_set_error_message msg : Oblivious (set_error_message msg).
Proof.
  intros [n l]. unfold set_error_message, eval, trace, write_all. simpl.
  by destruct n.
Qed.

Lemma oblivious_bind {A B : Type} (m : M A) (k : A -> M B) :
  Oblivious m -> (forall a, Oblivious (k a)) -> Oblivious (bind m k).
Proof.
  intros Hm Hk s.
  unfold eval, trace, bind.
  rewrite (Hm s), (Hm (mkState (erase (self s)) [])). simpl.
  rewrite erase_erase.
  set (a := eval m (erase (self s))).
  set (w1 := trace m (erase (self s))).
  rewrite (Hk a (mkState (write_all w1 (self s)) _)).
  rewrite (Hk a (mkState (write_all w1 (erase (self s))) _)). simpl.
  rewrite !erase_write_all, erase_erase.
  by rewrite write_all_app, app_assoc.
Qed.

Lemma oblivious_for_each {A B : Type} (xs : list A) (body : B -> A -> M B) :
  (forall acc x, Oblivious (body acc x)) ->
  forall acc, Oblivious (for_each xs acc body).
Proof.
  intros Hbody. induction xs as [|x xs IH]; intros acc; simpl.
  - apply oblivious_ret.
  - apply oblivious_bind; [apply Hbody | intros; apply IH].
Qed.

Lemma oblivious_attr_or_empty key : Oblivious (attr_or_empty key).
Proof. apply oblivious_asks. by intros e []. Qed.

Lemma get_raw_content_with_error e n :
  get_raw_content (with_error e n) = get_raw_content n.
Proof. by destruct n. Qed.

Lemma get_attribute_value_with_error e n names d :
  get_attribute_value (with_error e n) names d = get_attribute_value n names d.
Proof. induction names as [|a names IH]; [done|]. destruct n; simpl in *. by rewrite IH. Qed.

Create HintDb oblivious.

#[export] Hint Resolve oblivious_ret oblivious_set_error_message
  oblivious_attr_or_empty : oblivious.

Ltac oblivious :=
  repeat first
    [ apply oblivious_bind; [|intros]
    | apply oblivious_ret
    | apply oblivious_set_error_message
    | apply oblivious_attr_or_empty
    | apply oblivious_for_each; intros
    | apply oblivious_asks; intros ? [];
      simpl; rewrite ?get_attribute_value_with_error; reflexivity
    | match goal with
      | |- Oblivious (match ?x with _ => _ end) => destruct x
      | |- Oblivious (if ?x then _ else _) => destruct x
      end ].

(** What an oblivious hook leaves on the node. *)
Section Oblivious.
Context {A : Type} (m : M A) (Hm : Oblivious m).

Lemma oblivious_exec n : exec m n = write_all (trace m (erase n)) n.
Proof. unfold exec. by rewrite (Hm (mkState n [])). Qed.

Lemma oblivious_trace n : trace m n = trace m (erase n).
Proof. unfold trace at 1. by rewrite (Hm (mkState n [])). Qed.

Lemma oblivious_eval n : eval m n = eval m (erase n).
Proof. unfold eval at 1. by rewrite (Hm (mkState n [])). Qed.

Lemma oblivious_last_wins n :
  error_message (exec m n) = List.last (trace m n) (error_message n).
Proof. rewrite oblivious_exec, (oblivious_trace n). reflexivity. Qed.

Lemma oblivious_shape n :
  name (exec m n) = name n /\ attrs (exec m n) = attrs n
  /\ content (exec m n) = content n /\ children (exec m n) = children n
  /\ relative_url_base (exec m n) = relative_url_base n.
Proof. rewrite oblivious_exec. repeat split. Qed.

Lemma oblivious_idempotent n : exec m (exec m n) = exec m n.
Proof.
  rewrite !oblivious_exec, erase_write_all. apply write_all_idem.
Qed.

End Oblivious.

(** ** The hooks only assign error messages *)

Lemma oblivious_highlight_line acc piece : Oblivious (CodeBlock.highlight_line acc piece).
Proof. unfold CodeBlock.highlight_line. oblivious. Qed.

Lemma oblivious_get_highlight_lines : Oblivious CodeBlock.get_highlight_lines.
Proof.
  unfold CodeBlock.get_highlight_lines.
  apply oblivious_bind; [apply oblivious_attr_or_empty | intros v].
  destruct (Py.truthy v); [|apply oblivious_ret].
  apply oblivious_for_each. intros. apply oblivious_highlight_line.
Qed.

Lemma oblivious_get_start_line_number : Oblivious CodeBlock.get_start_line_number.
Proof. unfold CodeBlock.get_start_line_number. oblivious. Qed.

Lemma oblivious_get_img_size key msg : Oblivious (Image.get_img_size key msg).
Proof. unfold Image.get_img_size. oblivious. Qed.

Section HooksOblivious.
Context `{Services}.

Lemma oblivious_get_language_name cls : Oblivious (CodeBlock.get_language_name cls).
Proof. unfold CodeBlock.get_language_name. oblivious. Qed.

Lemma oblivious_codeblock_sanitize_node cls breadcrumb :
  Oblivious (CodeBlock.sanitize_node cls breadcrumb).
Proof.
  unfold CodeBlock.sanitize_node, TreeNode_sanitize_node.
  apply oblivious_bind; [apply oblivious_ret | intros _].
  apply oblivious_bind; [apply oblivious_get_highlight_lines | intros _].
  apply oblivious_bind; [apply oblivious_get_start_line_number | intros _].
  apply oblivious_bind; [apply oblivious_get_language_name | intros language].
  oblivious.
Qed.

Lemma oblivious_get_image_src_link : Oblivious Image.get_image_src_link.
Proof.
  unfold Image.get_image_src_link.
  apply oblivious_bind; [apply oblivious_asks; by intros ? [] | intros src].
  destruct src as [[|c r]|]; try apply oblivious_ret;
    (apply oblivious_bind; [apply oblivious_asks; by intros ? [] | intros base];
     apply oblivious_bind;
       [apply oblivious_asks; intros; apply get_raw_content_with_error | intros raw];
     apply oblivious_ret).
Qed.

Lemma oblivious_image_sanitize_node breadcrumb :
  Oblivious (Image.sanitize_node breadcrumb).
Proof.
  unfold Image.sanitize_node, TreeNode_sanitize_node,
    Image.get_img_width, Image.get_img_height.
  apply oblivious_bind; [apply oblivious_ret | intros _].
  apply oblivious_bind; [apply oblivious_get_img_size | intros _].
  apply oblivious_bind; [apply oblivious_get_img_size | intros _].
  apply oblivious_bind; [apply oblivious_get_image_src_link | intros src].
  oblivious.
Qed.

Lemma oblivious_get_youtube_video_id : Oblivious Youtube.get_youtube_video_id.
Proof.
  apply oblivious_asks. intros. by rewrite get_raw_content_with_error.
Qed.

Lemma oblivious_youtube_sanitize_node breadcrumb :
  Oblivious (Youtube.sanitize_node breadcrumb).
Proof.
  unfold Youtube.sanitize_node, TreeNode_sanitize_node.
  apply oblivious_bind; [apply oblivious_ret | intros _].
  apply oblivious_bind; [apply oblivious_get_youtube_video_id | intros v].
  oblivious.
Qed.

End HooksOblivious.

(** ** White space and blank lines *)

Lemma rstrip_by_empty p s :
  Py.rstrip_by p s = EmptyString <-> Py.all_chars p s = true.
Proof.
  induction s as [|c r IH]; simpl; [done|].
  destruct (Py.rstrip_by p r) eqn:E.
  - destruct (p c); simpl; [|split; discriminate].
    split; intros _; [by apply IH | done].
  - split; [discriminate|]. intros [_ Hr]%andb_true_iff.
    apply IH in Hr. discriminate.
Qed.

Lemma all_chars_lstrip_by p s :
  Py.all_chars p (Py.lstrip_by p s) = Py.all_chars p s.
Proof.
  induction s as [|c r IH]; simpl; [done|].
  destruct (p c) eqn:E; simpl; [done | by rewrite E].
Qed.

Lemma truthy_false s : Py.truthy s = false <-> s = EmptyString.
Proof. destruct s; simpl; split; congruence. Qed.

(** [not line.strip()] holds exactly of the blank lines. *)
Lemma truthy_strip line : Py.truthy (Py.strip line) = negb (blank line).
Proof.
  unfold Py.strip, blank.
  destruct (Py.all_chars Py.is_space line) eqn:E.
  - rewrite <- all_chars_lstrip_by in E. apply rstrip_by_empty in E.
    by rewrite E.
  - destruct (Py.truthy _) eqn:T; [done|].
    apply truthy_false, rstrip_by_empty in T.
    rewrite all_chars_lstrip_by in T. congruence.
Qed.

(** ** The two loops of [get_cleaned_content] *)

Lemma pop_leading_blank_spec lines :
  exists pre, lines = pre ++ CodeBlock.pop_leading_blank lines
              /\ Forall (fun l => blank l = true) pre
              /\ starts_non_blank (CodeBlock.pop_leading_blank lines).
Proof.
  induction lines as [|l rest (pre & E & Hpre & Hs)]; simpl.
  - by exists [].
  - rewrite truthy_strip. destruct (blank l) eqn:B; simpl.
    + exists (l :: pre). split; [by rewrite E at 1|]. split; [by constructor|done].
    + by exists [].
Qed.

Lemma pop_trailing_blank_step fuel lines :
  lines <> [] ->
  CodeBlock.pop_trailing_blank (S fuel) lines
  = if Py.truthy (Py.strip (List.last lines EmptyString)) then lines
    else CodeBlock.pop_trailing_blank fuel (removelast lines).
Proof. by destruct lines. Qed.

Lemma pop_trailing_blank_spec fuel lines :
  (length lines <= fuel)%nat ->
  exists post, lines = CodeBlock.pop_trailing_blank fuel lines ++ post
               /\ Forall (fun l => blank l = true) post
               /\ ends_non_blank (CodeBlock.pop_trailing_blank fuel lines).
Proof.
  revert lines. induction fuel as [|fuel IH]; intros lines Hlen.
  - destruct lines; [|simpl in Hlen; lia].
    exists []. simpl. split; [done|]. split; [constructor | by left].
  - destruct (decide (lines = [])) as [->|Hne].
    + exists []. simpl. split; [done|]. split; [constructor | by left].
    + rewrite (pop_trailing_blank_step _ _ Hne), truthy_strip.
      destruct (blank (List.last lines EmptyString)) eqn:B; simpl.
      * destruct (IH (removelast lines)) as (post & E & Hpost & He).
        { rewrite (app_removelast_last EmptyString Hne) in Hlen.
          rewrite length_app in Hlen. simpl in Hlen. lia. }
        exists (post ++ [List.last lines EmptyString]).
        split; [|split; [|done]].
        -- rewrite app_assoc, <- E. by apply app_removelast_last.
        -- apply Forall_app. split; [done|]. by constructor.
      * exists []. rewrite app_nil_r. split; [done|]. split; [constructor | by right].
Qed.

Lemma starts_non_blank_prefix (res post : list string) :
  starts_non_blank (res ++ post) -> starts_non_blank res.
Proof. by destruct res. Qed.

(** The lines [get_cleaned_content] keeps: the lines of the text without a
    prefix and a suffix of blank lines, and with no blank line left at
    either end. *)
Lemma cleaned_lines_spec text :
  exists pre post,
    Py.splitlines text = pre ++ CodeBlock.cleaned_lines text ++ post
    /\ Forall (fun l => blank l = true) pre
    /\ Forall (fun l => blank l = true) post
    /\ starts_non_blank (CodeBlock.cleaned_lines text)
    /\ ends_non_blank (CodeBlock.cleaned_lines text).
Proof.
  unfold CodeBlock.cleaned_lines.
  destruct (pop_leading_blank_spec (Py.splitlines text)) as (pre & E & Hpre & Hs).
  set (mid := CodeBlock.pop_leading_blank (Py.splitlines text)) in *.
  destruct (pop_trailing_blank_spec (length mid) mid) as (post & E' & Hpost & He);
    [lia|].
  exists pre, post. repeat split; try done.
  - by rewrite <- E'.
  - apply (starts_non_blank_prefix _ post). by rewrite <- E'.
Qed.

Lemma blank_prefix_unique (a b x y : list string) :
  a ++ x = b ++ y ->
  Forall (fun l => blank l = true) a -> Forall (fun l => blank l = true) b ->
  starts_non_blank x -> starts_non_blank y ->
  (x = [] -> y = []) -> (y = [] -> x = []) ->
  x = y.
Proof.
  revert b. induction a as [|l a IH]; intros b E Ha Hb Hx Hy Hxy Hyx.
  - destruct b as [|l' b]; [done|]. simpl in E.
    destruct x as [|x0 x]; [by rewrite Hxy|].
    injection E as -> _. inversion Hb; subst. simpl in Hx. congruence.
  - destruct b as [|l' b].
    + simpl in E. destruct y as [|y0 y]; [by rewrite Hyx|].
      injection E as -> _. inversion Ha; subst. simpl in Hy. congruence.
    + injection E as _ E. inversion Ha; inversion Hb; subst. by apply (IH b).
Qed.

Lemma all_blank_no_middle (l pre mid post : list string) :
  l = pre ++ mid ++ post -> Forall (fun l => blank l = true) l ->
  starts_non_blank mid -> mid = [].
Proof.
  intros -> Hall Hs. destruct mid as [|m mid]; [done|].
  apply Forall_app in Hall as [_ Hall]. inversion Hall; subst.
  simpl in Hs. congruence.
Qed.

Lemma ends_non_blank_rev (mid : list string) :
  ends_non_blank mid -> starts_non_blank (rev mid).
Proof.
  intros [->|H]; [done|].
  destruct mid as [|m mid] using rev_ind; [done|].
  rewrite rev_unit. simpl. by rewrite last_last in H.
Qed.

(** A list of lines has one decomposition into blank lines, a middle part
    with no blank line at either end, and blank lines. *)
Lemma trim_unique (pre mid post pre' mid' post' : list string) :
  pre ++ mid ++ post = pre' ++ mid' ++ post' ->
  Forall (fun l => blank l = true) pre -> Forall (fun l => blank l = true) post ->
  Forall (fun l => blank l = true) pre' -> Forall (fun l => blank l = true) post' ->
  starts_non_blank mid -> ends_non_blank mid ->
  starts_non_blank mid' -> ends_non_blank mid' ->
  mid = mid'.
Proof.
  intros E Hpre Hpost Hpre' Hpost' Hs He Hs' He'.
  destruct mid as [|m mid0].
  { symmetry. apply (all_blank_no_middle _ pre' mid' post' E); [|done].
    apply Forall_app; split; [done|]. by simpl. }
  destruct mid' as [|m' mid0'].
  { apply (all_blank_no_middle _ pre (m :: mid0) post (eq_sym E)); [|done].
    apply Forall_app; split; [done|]. by simpl. }
  assert (E2 : (m :: mid0) ++ post = (m' :: mid0') ++ post').
  { by apply (blank_prefix_unique pre pre'). }
  assert (E3 : rev (m :: mid0) = rev (m' :: mid0')).
  { apply (blank_prefix_unique (rev post) (rev post')).
    - by rewrite <- !rev_app_distr, E2.
    - by apply Forall_rev.
    - by apply Forall_rev.
    - by apply ends_non_blank_rev.
    - by apply ends_non_blank_rev.
    - simpl. intros Hx. symmetry in Hx. by apply app_cons_not_nil in Hx.
    - simpl. intros Hx. symmetry in Hx. by apply app_cons_not_nil in Hx. }
  by rewrite <- (rev_involutive (m :: mid0)), E3, rev_involutive.
Qed.

(** ** Properties of the hooks *)

(** C10: the plain-text hook of a collapse node returns its argument
    [inner_text] unchanged and leaves the node as it is, for every subclass
    of [CollapseBaseTreeNode], in particular for the tags [collapse] and
    [collapse2]. *)
Theorem collapse_render_text_identity (cls : Collapse.Class) (inner_text : string)
  (s : State) :
  Collapse.render_text cls inner_text s = (inner_text, s)
  /\ Collapse.render_text Collapse.CollapseTreeNode inner_text s = (inner_text, s)
  /\ Collapse.render_text Collapse.Collapse2TreeNode inner_text s = (inner_text, s)
  /\ Collapse.canonical_tag_name Collapse.CollapseTreeNode = "collapse"
  /\ Collapse.canonical_tag_name Collapse.Collapse2TreeNode = "collapse2".
Proof. repeat split. Qed.



(** C7: [get_cleaned_content] removes the blank lines at the start and at
    the end of the content, all of them, and keeps every line between them,
    blank or not, as it is and in order: the lines of the content are blank
    lines, then the lines kept, then blank lines, and the lines kept neither
    start nor end with a blank line; whenever the lines of the content read
    so, the middle part is what is returned. *)
Theorem get_cleaned_content_trims (n : TreeNode) :
  let kept := eval CodeBlock.get_cleaned_content_lines n in
  (exists pre post,
      Py.splitlines (content n) = pre ++ kept ++ post
      /\ Forall (fun l => blank l = true) pre
      /\ Forall (fun l => blank l = true) post
      /\ starts_non_blank kept /\ ends_non_blank kept)
  /\ eval CodeBlock.get_cleaned_content n = Py.join nl kept
  /\ (forall pre mid post,
        Py.splitlines (content n) = pre ++ mid ++ post ->
        Forall (fun l => blank l = true) pre ->
        Forall (fun l => blank l = true) post ->
        starts_non_blank mid -> ends_non_blank mid ->
        kept = mid /\ eval CodeBlock.get_cleaned_content n = Py.join nl mid).
Proof.
  unfold eval, CodeBlock.get_cleaned_content_lines, CodeBlock.get_cleaned_content,
    asks. simpl.
  destruct (cleaned_lines_spec (content n)) as (pre & post & E & Hpre & Hpost & Hs & He).
  split; [by exists pre, post|]. split; [done|].
  intros pre' mid post' E' Hpre' Hpost' Hs' He'.
  assert (CodeBlock.cleaned_lines (content n) = mid) as ->; [|done].
  apply (trim_unique pre _ post pre' _ post'); try done. by rewrite <- E.
Qed.

Lemma get_cleaned_content_example :
  let n := node "code" []
             (nl +:+ "   " +:+ nl +:+ "  a" +:+ nl +:+ nl +:+ " b" +:+ nl +:+ " " +:+ nl) in
  eval CodeBlock.get_cleaned_content_lines n = ["  a"; ""; " b"]
  /\ eval CodeBlock.get_cleaned_content n = "  a" +:+ nl +:+ nl +:+ " b".
Proof.
  intros n.
  apply (proj2 (proj2 (get_cleaned_content_trims n)) [""; "   "] ["  a"; ""; " b"] [" "]).
  - reflexivity.
  - repeat constructor.
  - repeat constructor.
  - reflexivity.
  - right. reflexivity.
Defined.

(** C8: the validation hooks of the code-block, image and youtube nodes are
    idempotent: for every breadcrumb, running the hook on the node it has
    left gives the same node again, and the hook changes neither the
    children of the node nor its name, attributes and content. *)
Theorem sanitize_node_idempotent `{Services} (cls : CodeBlock.Class)
  (breadcrumb : list TreeNode) (n : TreeNode) :
  let unchanged (after : TreeNode) :=
    children after = children n /\ name after = name n
    /\ attrs after = attrs n /\ content after = content n in
  (exec (CodeBlock.sanitize_node cls breadcrumb)
     (exec (CodeBlock.sanitize_node cls breadcrumb) n)
   = exec (CodeBlock.sanitize_node cls breadcrumb) n
   /\ unchanged (exec (CodeBlock.sanitize_node cls breadcrumb) n))
  /\ (exec (Image.sanitize_node breadcrumb) (exec (Image.sanitize_node breadcrumb) n)
      = exec (Image.sanitize_node breadcrumb) n
      /\ unchanged (exec (Image.sanitize_node breadcrumb) n))
  /\ (exec (Youtube.sanitize_node breadcrumb) (exec (Youtube.sanitize_node breadcrumb) n)
      = exec (Youtube.sanitize_node breadcrumb) n
      /\ unchanged (exec (Youtube.sanitize_node breadcrumb) n)).
Proof.
  intros unchanged.
  pose proof (oblivious_codeblock_sanitize_node cls breadcrumb) as Hc.
  pose proof (oblivious_image_sanitize_node breadcrumb) as Hi.
  pose proof (oblivious_youtube_sanitize_node breadcrumb) as Hy.
  unfold unchanged.
  repeat split;
    first [ by apply oblivious_idempotent
          | by apply (oblivious_shape _ Hc n)
          | by apply (oblivious_shape _ Hi n)
          | by apply (oblivious_shape _ Hy n) ].
Qed.

(** The message a validation hook leaves is the last one it assigned, and
    the message the node had before when it assigned none. *)
Lemma sanitize_node_last_error_wins `{Services} (cls : CodeBlock.Class)
  (breadcrumb : list TreeNode) (n : TreeNode) :
  error_message (exec (CodeBlock.sanitize_node cls breadcrumb) n)
  = List.last (trace (CodeBlock.sanitize_node cls breadcrumb) n) (error_message n)
  /\ error_message (exec (Image.sanitize_node breadcrumb) n)
     = List.last (trace (Image.sanitize_node breadcrumb) n) (error_message n)
  /\ error_message (exec (Youtube.sanitize_node breadcrumb) n)
     = List.last (trace (Youtube.sanitize_node breadcrumb) n) (error_message n).
Proof.
  split; [|split]; apply oblivious_last_wins.
  - apply oblivious_codeblock_sanitize_node.
  - apply oblivious_image_sanitize_node.
  - apply oblivious_youtube_sanitize_node.
Qed.


(** ** The loop of [get_highlight_lines] *)

Lemma write_all_cons msg w n : write_all (msg :: w) n = write_all w (with_error msg n).
Proof. apply (write_all_app [msg] w n). Qed.

Lemma accepted_numbers_cons t ts :
  accepted_numbers (t :: ts)
  = match Py.int t with
    | Some z => if 0 <=? z then z :: accepted_numbers ts else accepted_numbers ts
    | None => accepted_numbers ts
    end.
Proof.
  unfold accepted_numbers. simpl. destruct (Py.int t) as [z|]; [|done].
  by destruct (0 <=? z).
Qed.

Lemma positive_integers_cons t ts :
  positive_integers (t :: ts)
  = match Py.int t with
    | Some z => if 0 <? z then z :: positive_integers ts else positive_integers ts
    | None => positive_integers ts
    end.
Proof.
  unfold positive_integers. simpl. destruct (Py.int t) as [z|]; [|done].
  by destruct (0 <? z).
Qed.

Lemma rejections_cons t ts :
  rejections (t :: ts)
  = match rejection t with
    | Some msg => msg :: rejections ts
    | None => rejections ts
    end.
Proof. unfold rejections. simpl. by destruct (rejection t). Qed.

Lemma highlight_line_run (acc : list Z) (piece : string) (s : State) :
  Py.truthy (Py.strip piece) = true ->
  CodeBlock.highlight_line acc piece s
  = (acc ++ accepted_numbers [Py.strip piece],
     mkState (write_all (rejections [Py.strip piece]) (self s))
             (assigned s ++ rejections [Py.strip piece])).
Proof.
  intros T. destruct s as [n log].
  unfold CodeBlock.highlight_line. rewrite T.
  rewrite accepted_numbers_cons, rejections_cons. unfold rejection.
  destruct (Py.int (Py.strip piece)) as [z|]; simpl.
  - destruct (0 <=? z) eqn:L.
    + assert ((z <? 0) = false) as -> by lia.
      unfold ret. simpl. by rewrite write_all_nil, app_nil_r.
    + assert ((z <? 0) = true) as -> by lia.
      unfold bind, set_error_message, ret, gettext. simpl.
      by rewrite app_nil_r.
  - unfold bind, set_error_message, ret, not_a_number, gettext. simpl.
    by rewrite app_nil_r.
Qed.

Lemma accepted_numbers_app ts us :
  accepted_numbers (ts ++ us) = accepted_numbers ts ++ accepted_numbers us.
Proof. apply omap_app. Qed.

Lemma rejections_app ts us : rejections (ts ++ us) = rejections ts ++ rejections us.
Proof. apply omap_app. Qed.

Lemma highlight_loop (pieces : list string) (acc : list Z) (s : State) :
  let ts := List.filter Py.truthy (List.map Py.strip pieces) in
  for_each pieces acc CodeBlock.highlight_line s
  = (acc ++ accepted_numbers ts,
     mkState (write_all (rejections ts) (self s)) (assigned s ++ rejections ts)).
Proof.
  revert acc s. induction pieces as [|piece pieces IH]; intros acc [n log].
  - simpl. unfold ret. by rewrite write_all_nil, !app_nil_r.
  - cbn [for_each List.map List.filter]. unfold bind.
    destruct (Py.truthy (Py.strip piece)) eqn:T.
    + rewrite (highlight_line_run _ _ _ T), IH. cbn [self assigned].
      set (rest := List.filter Py.truthy (List.map Py.strip pieces)).
      change (Py.strip piece :: rest) with ([Py.strip piece] ++ rest).
      rewrite accepted_numbers_app, rejections_app.
      by rewrite write_all_app, !app_assoc.
    + unfold CodeBlock.highlight_line. rewrite T. unfold ret. apply IH.
Qed.

(** What [get_highlight_lines] returns and assigns, for every node. *)
Lemma get_highlight_lines_run (n : TreeNode) :
  let value := default EmptyString (attrs n !! CodeBlock.hl_lines_attr_name) in
  CodeBlock.get_highlight_lines (mkState n [])
  = (accepted_numbers (tokens value),
     mkState (write_all (rejections (tokens value)) n) (rejections (tokens value))).
Proof.
  unfold CodeBlock.get_highlight_lines, attr_or_empty, asks, bind. simpl.
  destruct (default EmptyString (attrs n !! CodeBlock.hl_lines_attr_name))
    as [|c r] eqn:E; simpl.
  - unfold ret. by rewrite write_all_nil.
  - rewrite highlight_loop. reflexivity.
Qed.

Lemma accepted_numbers_positive (ts : list string) :
  Forall (fun t => positive_integer t \/ negative_number t \/ non_numeric t) ts ->
  accepted_numbers ts = positive_integers ts.
Proof.
  induction 1 as [|t ts Ht _ IH]; [done|].
  rewrite accepted_numbers_cons, positive_integers_cons, IH.
  destruct Ht as [(z & -> & Hz) | [(z & -> & Hz) | -> ]]; [| |done].
  - assert ((0 <=? z) = true) as -> by lia.
    by assert ((0 <? z) = true) as -> by lia.
  - assert ((0 <=? z) = false) as -> by lia.
    by assert ((0 <? z) = false) as -> by lia.
Qed.

Lemma rejections_complete (ts : list string) (t : string) :
  In t ts ->
  (negative_number t -> In "Line number must be positive" (rejections ts))
  /\ (non_numeric t -> In (t +:+ " is not a number") (rejections ts)).
Proof.
  intros Hin. unfold rejections.
  split; intros Ht; apply list_elem_of_In, list_elem_of_omap;
    exists t; (split; [by apply list_elem_of_In|]); unfold rejection.
  - destruct Ht as (z & -> & Hz). by assert ((z <? 0) = true) as -> by lia.
  - by rewrite Ht.
Qed.

(** C3: for a value of [hl_lines] whose tokens are positive integers,
    negative numbers and tokens that are not numbers, [get_highlight_lines]
    returns the positive integers among them, in order, and nothing else; it
    assigns one error message for each rejected token, in order, so that
    each negative number and each token that is not a number has its message
    assigned to the node; the node is left with the message of the last
    rejected token.  For the value [2,-1,x]: the list [2], and the messages
    for [-1] and for [x]. *)
Theorem get_highlight_lines_accepts_positive (n : TreeNode) :
  let value := default EmptyString (attrs n !! CodeBlock.hl_lines_attr_name) in
  Forall (fun t => positive_integer t \/ negative_number t \/ non_numeric t)
    (tokens value) ->
  eval CodeBlock.get_highlight_lines n = positive_integers (tokens value)
  /\ trace CodeBlock.get_highlight_lines n = rejections (tokens value)
  /\ (forall t, In t (tokens value) ->
        (negative_number t ->
         In "Line number must be positive" (trace CodeBlock.get_highlight_lines n))
        /\ (non_numeric t ->
            In (t +:+ " is not a number") (trace CodeBlock.get_highlight_lines n)))
  /\ error_message (exec CodeBlock.get_highlight_lines n)
     = List.last (rejections (tokens value)) (error_message n)
  /\ (value = "2,-1,x" ->
      eval CodeBlock.get_highlight_lines n = [2]
      /\ trace CodeBlock.get_highlight_lines n
         = ["Line number must be positive"; "x is not a number"]).
Proof.
  intros value Htok.
  unfold eval, trace, exec. rewrite (get_highlight_lines_run n). simpl.
  fold value.
  split; [by apply accepted_numbers_positive|]. split; [done|].
  split; [intros t Hin; by apply rejections_complete|]. split; [done|].
  intros ->. split; reflexivity.
Qed.

Lemma get_highlight_lines_example :
  let n := node "code" [("hl_lines", "2,-1,x")] "a" in
  eval CodeBlock.get_highlight_lines n = [2]
  /\ trace CodeBlock.get_highlight_lines n
     = ["Line number must be positive"; "x is not a number"].
Proof.
  intros n.
  assert (H : Forall (fun t => positive_integer t \/ negative_number t \/ non_numeric t)
                (tokens "2,-1,x")).
  { change (tokens "2,-1,x") with ["2"; "-1"; "x"].
    constructor; [|constructor; [|constructor; [|constructor]]].
    - left. exists 2. split; [reflexivity | lia].
    - right. left. exists (-1). split; [reflexivity | lia].
    - right. right. reflexivity. }
  apply (proj2 (proj2 (proj2 (proj2 (get_highlight_lines_accepts_positive n H))))).
  reflexivity.
Defined.

(** ** Youtube nodes *)

Section YoutubeProperties.
Context `{Services}.




Lemma youtube_render_html_eval inner n :
  eval (Youtube.render_html inner) n
  = if Py.truthy (eval Youtube.get_youtube_video_id n)
    then Youtube.integration_html_template
           (Py.str_of_int Youtube.default_iframe_width)
           (Py.str_of_int Youtube.default_iframe_height)
           (Url.quote_plus (eval Youtube.get_youtube_video_id n))
    else inner.
Proof. reflexivity. Qed.

Lemma youtube_render_text_eval inner n :
  eval (Youtube.render_text inner) n
  = if Py.truthy (eval Youtube.get_youtube_video_id n)
    then Youtube.text_link_format (Url.quote_plus (eval Youtube.get_youtube_video_id n))
    else inner.
Proof. reflexivity. Qed.


End YoutubeProperties.


(** ** Code blocks and unknown languages *)

Section CodeBlockProperties.
Context `{Services}.
Variable cls : CodeBlock.Class.

Lemma get_language_name_run (s : State) :
  CodeBlock.get_language_name cls s = (eval (CodeBlock.get_language_name cls) (self s), s).
Proof.
  unfold CodeBlock.get_language_name, eval. by destruct (CodeBlock.language_name cls).
Qed.






End CodeBlockProperties.


(** ** Image nodes and their source link *)

Section ImageProperties.
Context `{Services}.

(** A non-empty attribute [src] is the source link as it stands: neither
    [sanitize_url] nor the allow-list of schemes is consulted. *)
Lemma get_image_src_link_attribute (n : TreeNode) (src : string) :
  attrs n !! Image.source_link_attr_name = Some src -> Py.truthy src = true ->
  Image.get_image_src_link (mkState n []) = (src, mkState n []).
Proof.
  intros Hsrc Htruthy.
  unfold Image.get_image_src_link, bind, asks, ret. cbn [self]. rewrite Hsrc.
  by destruct src.
Qed.

(** Without the attribute [src], the source link is the raw content of the
    node, stripped, as [sanitize_url] returns it for the allow-list. *)
Lemma get_image_src_link_raw_content (n : TreeNode) :
  default EmptyString (attrs n !! Image.source_link_attr_name) = EmptyString ->
  Image.get_image_src_link (mkState n [])
  = (sanitize_url (Py.strip (get_raw_content n)) (Some Image.allowed_schemes)
       (relative_url_base n),
     mkState n []).
Proof.
  intros Hsrc.
  unfold Image.get_image_src_link, bind, asks, ret. cbn [self].
  destruct (attrs n !! Image.source_link_attr_name) as [[|c r]|]; try done.
Qed.

(** The source link taken from the attribute [src] stands in the HTML of
    the image as it is. *)
Lemma image_render_html_attribute (n : TreeNode) (src inner : string) :
  attrs n !! Image.source_link_attr_name = Some src -> Py.truthy src = true ->
  exists extra_args,
    eval (Image.render_html inner) n = Image.html_render_template src extra_args.
Proof.
  intros Hsrc Htruthy. unfold eval, Image.render_html.
  unfold bind at 1. rewrite (get_image_src_link_attribute n src Hsrc Htruthy).
  unfold bind, ret.
  destruct (Image.get_alt_text (mkState n [])) as [alt s1].
  destruct (Image.get_img_width s1) as [w s2].
  destruct (Image.get_img_height s2) as [h s3].
  eauto.
Qed.

(** C1, on the code: the HTML of the image whose attribute [src] is
    [javascript:alert('<1>')] holds that value as it is between the quotes
    of [src], whatever the escaping function and the URL sanitizer are: it
    went through neither. *)
Theorem image_src_attribute_reaches_html (inner : string) :
  let n := node "img" [("src", "javascript:alert('<1>')")] "" in
  eval Image.get_image_src_link n = "javascript:alert('<1>')"
  /\ exists extra_args,
      eval (Image.render_html inner) n
      = "<img src=" +:+ dq +:+ "javascript:alert('<1>')" +:+ dq +:+ extra_args +:+ " />".
Proof.
  intros n. split; [reflexivity|].
  apply (image_render_html_attribute n "javascript:alert('<1>')" inner); reflexivity.
Qed.

(** C2, on the code: the source link of the image whose attribute [src] is
    [javascript:alert(1)] is that value, though its scheme [javascript] is
    outside the allow-list, and [sanitize_node] assigns no error message. *)
Theorem image_src_attribute_scheme_unchecked (breadcrumb : list TreeNode) :
  let n := node "img" [("src", "javascript:alert(1)")] "" in
  Url.split_scheme "javascript:alert(1)" = ("javascript", "alert(1)")
  /\ mem "javascript" Image.allowed_schemes = false
  /\ eval Image.get_image_src_link n = "javascript:alert(1)"
  /\ trace (Image.sanitize_node breadcrumb) n = []
  /\ exec (Image.sanitize_node breadcrumb) n = n.
Proof. repeat split. Qed.

End ImageProperties.

(** With the same URL as raw content instead, the sanitizer of the example
    instance rejects it and the validation assigns its error message. *)
Lemma image_raw_content_scheme_checked :
  let n := node "img" [] "javascript:alert(1)" in
  eval (Image.get_image_src_link (H := Std.services)) n = EmptyString
  /\ error_message (exec (Image.sanitize_node (H := Std.services) []) n)
     = "Missing or erroneous source URL"
  /\ Std.html_escape "javascript:alert('<1>')" <> "javascript:alert('<1>')"
  /\ eval (Image.render_html (H := Std.services) "")
       (node "img" [("src", "javascript:alert('<1>')")] "")
     = "<img src=" +:+ dq +:+ "javascript:alert('<1>')" +:+ dq +:+ " />".
Proof. vm_compute. repeat split. discriminate. Qed.

(** ** The Python primitives on examples *)

Example split_example : Py.split "," "2,-1,x" = ["2"; "-1"; "x"].
Proof. reflexivity. Qed.

Example splitlines_example :
  Py.splitlines ("a" +:+ String "013" nl +:+ nl +:+ "b" +:+ nl) = ["a"; ""; "b"].
Proof. reflexivity. Qed.

Example int_example :
  Py.int " -12 " = Some (-12) /\ Py.int "1_0" = Some 10 /\ Py.int "+7" = Some 7
  /\ Py.int "x" = None /\ Py.int "1__0" = None /\ Py.int "" = None
  /\ Py.int "- 1" = None.
Proof. repeat split; reflexivity. Qed.

Example urlsplit_example :
  Url.urlsplit (fun _ => true) "https://youtu.be/dQw4w9WgXcQ?t=1#x"
  = Some (Url.mkSplitResult "https" "youtu.be" "/dQw4w9WgXcQ" "t=1" "x").
Proof. reflexivity. Qed.

Example quote_plus_example : Url.quote_plus "a b/~" = "a+b%2F~".
Proof. reflexivity. Qed.

Example basename_example :
  Py.basename "/a/b" = "b" /\ Py.basename "/dQw" = "dQw" /\ Py.basename "a" = "a".
Proof. repeat split; reflexivity. Qed.

(** ** Further properties: sizes, line numbers and what validation reports *)

Lemma oblivious_bind_run {A B : Type} (m : M A) (k : A -> M B) (n : TreeNode) :
  Oblivious m -> (forall a, Oblivious (k a)) ->
  eval (bind m k) n = eval (k (eval m n)) n
  /\ trace (bind m k) n = trace m n ++ trace (k (eval m n)) n.
Proof.
  intros Hm Hk.
  rewrite (oblivious_eval _ (Hk (eval m n)) n), (oblivious_trace _ (Hk (eval m n)) n).
  rewrite (oblivious_eval _ Hm n), (oblivious_trace _ Hm n).
  unfold eval at 1, trace at 1, bind.
  rewrite (Hm (mkState n [])). cbn [self assigned].
  rewrite (Hk _ (mkState _ _)). cbn [self assigned fst snd].
  by rewrite erase_write_all.
Qed.




Lemma accepted_rejected_partition (ts : list string) :
  Forall (fun z => 0 <= z) (accepted_numbers ts)
  /\ (length (accepted_numbers ts) + length (rejections ts) = length ts)%nat
  /\ (rejections ts = []
      <-> Forall (fun t => exists z, Py.int t = Some z /\ 0 <= z) ts).
Proof.
  induction ts as [|t ts (IHa & IHl & IHr)]; [by repeat split|].
  rewrite accepted_numbers_cons, rejections_cons. unfold rejection.
  destruct (Py.int t) as [z|] eqn:E.
  - destruct (0 <=? z) eqn:L.
    + assert ((z <? 0) = false) as -> by lia.
      split; [constructor; [lia | done]|]. split; [simpl; lia|].
      rewrite IHr. split.
      * intros Hts. constructor; [|done]. exists z. split; [done | lia].
      * by inversion 1.
    + assert ((z <? 0) = true) as -> by lia.
      split; [done|]. split; [simpl; lia|]. split; [done|].
      inversion 1 as [|? ? (z' & Hz' & Hpos)]; subst.
      rewrite E in Hz'. injection Hz' as <-. lia.
  - split; [done|]. split; [simpl; lia|]. split; [done|].
    inversion 1 as [|? ? (z' & Hz' & Hpos)]; subst. congruence.
Qed.

(** X2: for every node, the numbers [get_highlight_lines] returns are at
    least zero; every token of the attribute is either returned or reported,
    never both: the numbers returned and the messages assigned are as many
    as the tokens; and no message is assigned exactly when every token is an
    integer at least zero. Zero is accepted, and empty pieces between commas
    are neither returned nor reported. *)
Theorem get_highlight_lines_partition (n : TreeNode) :
  let value := default EmptyString (attrs n !! CodeBlock.hl_lines_attr_name) in
  let result := eval CodeBlock.get_highlight_lines n in
  let messages := trace CodeBlock.get_highlight_lines n in
  Forall (fun z => 0 <= z) result
  /\ (length result + length messages = length (tokens value))%nat
  /\ (messages = []
      <-> Forall (fun t => exists z, Py.int t = Some z /\ 0 <= z) (tokens value)).
Proof.
  cbv zeta. unfold eval, trace. rewrite (get_highlight_lines_run n).
  cbn [fst snd assigned]. apply accepted_rejected_partition.
Qed.

(** X3: the first line number [get_start_line_number] returns is never
    negative; the function assigns at most one message, and when it assigns
    one it returns 1. *)
Theorem get_start_line_number_bounds (n : TreeNode) :
  let result := eval CodeBlock.get_start_line_number n in
  let messages := trace CodeBlock.get_start_line_number n in
  0 <= result
  /\ (length messages <= 1)%nat
  /\ (messages <> [] -> result = 1).
Proof.
  cbv zeta.
  unfold eval, trace, CodeBlock.get_start_line_number, attr_or_empty, bind, asks.
  cbn [self fst snd].
  destruct (Py.truthy _); [|cbn; repeat split; lia].
  destruct (Py.int _) as [z|]; [|cbn; repeat split; lia].
  destruct (0 <=? z) eqn:L; cbn; repeat split; try lia. done.
Qed.

Lemma trace_ret {A : Type} (a : A) n : trace (ret a) n = [].
Proof. reflexivity. Qed.

Lemma trace_set_error_message msg n : trace (set_error_message msg) n = [msg].
Proof. reflexivity. Qed.

Lemma oblivious_exec_clean {A : Type} (m : M A) (n : TreeNode) :
  Oblivious m -> trace m n = [] -> exec m n = n.
Proof.
  intros Hm Ht. rewrite (oblivious_exec _ Hm), <- (oblivious_trace _ Hm), Ht.
  apply write_all_nil.
Qed.

Section ValidationMessages.
Context `{Services}.

Lemma trace_get_language_name cls n : trace (CodeBlock.get_language_name cls) n = [].
Proof. unfold trace. by rewrite get_language_name_run. Qed.

Lemma codeblock_sanitize_node_trace (cls : CodeBlock.Class)
  (breadcrumb : list TreeNode) (n : TreeNode) :
  trace (CodeBlock.sanitize_node cls breadcrumb) n
  = trace CodeBlock.get_highlight_lines n
    ++ trace CodeBlock.get_start_line_number n
    ++ language_messages cls n.
Proof.
  set (check := fun language : string =>
                  if Py.truthy language
                  then match get_lexer_by_name language None with
                       | Some _ => ret tt
                       | None => set_error_message (gettext "Unknown language")
                       end
                  else ret tt).
  assert (H3 : forall language, Oblivious (check language))
    by (intros; unfold check; oblivious).
  pose proof (oblivious_bind _ _ (oblivious_get_language_name cls) H3) as H2.
  pose proof (oblivious_bind _ _ oblivious_get_start_line_number (fun _ => H2)) as H1.
  pose proof (oblivious_bind _ _ oblivious_get_highlight_lines (fun _ => H1)) as H0.
  unfold CodeBlock.sanitize_node, TreeNode_sanitize_node. fold check.
  rewrite (proj2 (oblivious_bind_run _ _ n (oblivious_ret tt) (fun _ => H0))).
  rewrite (proj2 (oblivious_bind_run _ _ n oblivious_get_highlight_lines
                    (fun _ => H1))).
  rewrite (proj2 (oblivious_bind_run _ _ n oblivious_get_start_line_number
                    (fun _ => H2))).
  rewrite (proj2 (oblivious_bind_run _ _ n (oblivious_get_language_name cls) H3)).
  rewrite trace_ret, trace_get_language_name. cbn [app].
  do 2 f_equal. unfold check, language_messages.
  destruct (Py.truthy _); [|done]. by destruct (get_lexer_by_name _ _).
Qed.

(** X4: the messages [sanitize_node] of a code block assigns are those of
    the highlight lines, then those of the first line number, then
    [Unknown language] when the language is not empty and has no lexer; when
    there is none of them, the node is left exactly as it was. *)
Theorem codeblock_sanitize_node_messages (cls : CodeBlock.Class)
  (breadcrumb : list TreeNode) (n : TreeNode) :
  trace (CodeBlock.sanitize_node cls breadcrumb) n
  = trace CodeBlock.get_highlight_lines n
    ++ trace CodeBlock.get_start_line_number n
    ++ language_messages cls n
  /\ (trace CodeBlock.get_highlight_lines n = [] ->
      trace CodeBlock.get_start_line_number n = [] ->
      language_messages cls n = [] ->
      exec (CodeBlock.sanitize_node cls breadcrumb) n = n).
Proof.
  pose proof (codeblock_sanitize_node_trace cls breadcrumb n) as Htrace.
  split; [done|].
  intros Hh Hs Hl. apply oblivious_exec_clean.
  - apply oblivious_codeblock_sanitize_node.
  - by rewrite Htrace, Hh, Hs, Hl.
Qed.

Lemma get_image_src_link_run (s : State) :
  Image.get_image_src_link s = (eval Image.get_image_src_link (self s), s).
Proof.
  unfold eval, Image.get_image_src_link, bind, asks, ret. cbn [self].
  by destruct (attrs (self s) !! Image.source_link_attr_name) as [[|c r]|].
Qed.

Lemma trace_get_image_src_link n : trace Image.get_image_src_link n = [].
Proof. unfold trace. by rewrite get_image_src_link_run. Qed.

Lemma image_sanitize_node_trace (breadcrumb : list TreeNode) (n : TreeNode) :
  trace (Image.sanitize_node breadcrumb) n
  = trace Image.get_img_width n
    ++ trace Image.get_img_height n
    ++ (if Py.truthy (eval Image.get_image_src_link n) then []
        else ["Missing or erroneous source URL"]).
Proof.
  set (check := fun src_link : string =>
                  if Py.truthy src_link then ret tt
                  else set_error_message (gettext "Missing or erroneous source URL")).
  assert (H3 : forall src_link, Oblivious (check src_link))
    by (intros; unfold check; oblivious).
  pose proof (oblivious_bind _ _ oblivious_get_image_src_link H3) as H2.
  pose proof (oblivious_bind _ _
                (oblivious_get_img_size Image.height_attr_name "Height must be positive")
                (fun _ => H2)) as H1.
  pose proof (oblivious_bind _ _
                (oblivious_get_img_size Image.width_attr_name "Width must be positive")
                (fun _ => H1)) as H0.
  unfold Image.sanitize_node, TreeNode_sanitize_node,
    Image.get_img_width, Image.get_img_height. fold check.
  rewrite (proj2 (oblivious_bind_run _ _ n (oblivious_ret tt) (fun _ => H0))).
  rewrite (proj2 (oblivious_bind_run _ _ n (oblivious_get_img_size _ _)
                    (fun _ => H1))).
  rewrite (proj2 (oblivious_bind_run _ _ n (oblivious_get_img_size _ _)
                    (fun _ => H2))).
  rewrite (proj2 (oblivious_bind_run _ _ n oblivious_get_image_src_link H3)).
  rewrite trace_ret, trace_get_image_src_link. cbn [app].
  do 2 f_equal. unfold check. by destruct (Py.truthy _).
Qed.

(** X5: the messages [sanitize_node] of an image assigns are those of the
    width, then those of the height, then the message of the missing source
    when the source link is empty; so an image without a source link is
    always left with that message, whatever its width and height are. *)
Theorem image_sanitize_node_messages (breadcrumb : list TreeNode) (n : TreeNode) :
  trace (Image.sanitize_node breadcrumb) n
  = trace Image.get_img_width n
    ++ trace Image.get_img_height n
    ++ (if Py.truthy (eval Image.get_image_src_link n) then []
        else ["Missing or erroneous source URL"])
  /\ (eval Image.get_image_src_link n = EmptyString ->
      error_message (exec (Image.sanitize_node breadcrumb) n)
      = "Missing or erroneous source URL").
Proof.
  pose proof (image_sanitize_node_trace breadcrumb n) as Htrace.
  split; [done|].
  intros Hsrc.
  rewrite (oblivious_last_wins _ (oblivious_image_sanitize_node breadcrumb)).
  rewrite Htrace, Hsrc. cbn [Py.truthy].
  by rewrite !last_app_default.
Qed.

End ValidationMessages.

(** ** Further properties: what the rendering hooks emit *)

Lemma append_cons (c : ascii) (s t : string) :
  String c s +:+ t = String c (s +:+ t).
Proof. reflexivity. Qed.

Lemma append_empty_r (s : string) : s +:+ EmptyString = s.
Proof. induction s as [|c s IH]; [done|]. by rewrite append_cons, IH. Qed.

Lemma all_chars_append p (s t : string) :
  Py.all_chars p (s +:+ t) = Py.all_chars p s && Py.all_chars p t.
Proof.
  induction s as [|c s IH]; [done|].
  rewrite append_cons. cbn [Py.all_chars]. by rewrite IH, andb_assoc.
Qed.

Lemma string_of_uint_digits (d : Decimal.uint) :
  Py.all_chars Py.is_digit (NilEmpty.string_of_uint d) = true.
Proof. induction d; cbn; try done; by rewrite IHd. Qed.

Lemma str_of_int_digits (z : Z) :
  0 < z ->
  Py.truthy (Py.str_of_int z) = true
  /\ Py.all_chars Py.is_digit (Py.str_of_int z) = true.
Proof.
  destruct z as [|p|p]; try lia. intros _.
  unfold Py.str_of_int. cbn [Z.to_int NilZero.string_of_int NilZero.string_of_uint].
  destruct (Pos.to_uint p) eqn:E; cbn [NilZero.string_of_uint]; try (split; [done|]);
    try (rewrite <- E; apply string_of_uint_digits); done.
Qed.

Section RenderedImage.
Context `{Services}.

Lemma get_alt_text_run (s : State) :
  Image.get_alt_text s = (eval Image.get_alt_text (self s), s).
Proof. reflexivity. Qed.

Lemma get_img_size_returns key msg (s : State) :
  0 <= fst (Image.get_img_size key msg s).
Proof.
  unfold Image.get_img_size, bind, asks.
  destruct (attrs (self s) !! key) as [[|c r]|]; cbn; try lia.
  destruct (Py.int (String c r)) as [z|]; cbn; try lia.
  destruct (0 <? z) eqn:L; cbn; lia.
Qed.

Lemma numeric_attr_of_size (attr : string) (size : Z) :
  0 <= size ->
  numeric_attr attr
    (if negb (size =? 0) then " " +:+ attr +:+ "=" +:+ dq +:+ Py.str_of_int size +:+ dq
     else EmptyString).
Proof.
  intros Hsize. destruct (size =? 0) eqn:E; [by left|].
  right. exists (Py.str_of_int size).
  destruct (str_of_int_digits size) as [Ht Hd]; [lia|]. by repeat split.
Qed.

(** The parts of the HTML of an image. *)
Lemma image_render_html_run (n : TreeNode) (inner : string) :
  exists alt_part width_part height_part,
    eval (Image.render_html inner) n
    = Image.html_render_template (eval Image.get_image_src_link n)
        ((alt_part +:+ width_part) +:+ height_part)
    /\ (alt_part = EmptyString
        \/ alt_part = " alt=" +:+ dq +:+ escape_html (eval Image.get_alt_text n) +:+ dq)
    /\ numeric_attr "width" width_part
    /\ numeric_attr "height" height_part.
Proof.
  unfold eval at 1, Image.render_html, bind.
  rewrite get_image_src_link_run, get_alt_text_run. cbn [self].
  pose proof (get_img_size_returns Image.width_attr_name "Width must be positive"
                (mkState n [])) as Hw.
  fold Image.get_img_width in Hw.
  destruct (Image.get_img_width (mkState n [])) as [w s2]. cbn [fst] in Hw.
  pose proof (get_img_size_returns Image.height_attr_name "Height must be positive"
                s2) as Hh.
  fold Image.get_img_height in Hh.
  destruct (Image.get_img_height s2) as [h s3]. cbn [fst] in Hh.
  unfold ret. cbn [fst].
  exists (if Py.truthy (eval Image.get_alt_text n)
          then " alt=" +:+ dq +:+ escape_html (eval Image.get_alt_text n) +:+ dq
          else EmptyString).
  exists (if negb (w =? 0)
          then " " +:+ "width" +:+ "=" +:+ dq +:+ Py.str_of_int w +:+ dq
          else EmptyString).
  exists (if negb (h =? 0)
          then " " +:+ "height" +:+ "=" +:+ dq +:+ Py.str_of_int h +:+ dq
          else EmptyString).
  split; [|split; [|split]].
  - f_equal.
    destruct (negb (w =? 0)); destruct (negb (h =? 0));
      rewrite ?append_empty_r; reflexivity.
  - destruct (Py.truthy _); [by right | by left].
  - by apply numeric_attr_of_size.
  - by apply numeric_attr_of_size.
Qed.

(** X7: the HTML of an image is the template filled with the source link
    and three parts: for the alternative text nothing or the attribute [alt]
    holding the text as [escape_html] returns it, and for the width and the
    height nothing or a numeric attribute whose value is made of decimal
    digits. *)
Theorem image_render_html_parts (n : TreeNode) (inner : string) :
  exists alt_part width_part height_part,
    eval (Image.render_html inner) n
    = Image.html_render_template (eval Image.get_image_src_link n)
        ((alt_part +:+ width_part) +:+ height_part)
    /\ (alt_part = EmptyString
        \/ alt_part = " alt=" +:+ dq +:+ escape_html (eval Image.get_alt_text n) +:+ dq)
    /\ numeric_attr "width" width_part
    /\ numeric_attr "height" height_part.
Proof. apply image_render_html_run. Qed.

(** X6: an image without a source link renders in text as its inner text,
    unchanged, while its HTML is still an [img] element, with an empty
    [src]; with a source link the text is the link, followed by the
    alternative text in brackets when there is one, and the inner text is
    not used. *)
Theorem image_render_text_fallback (n : TreeNode) (inner : string) :
  (eval Image.get_image_src_link n = EmptyString ->
   eval (Image.render_text inner) n = inner
   /\ exists extra_args,
       eval (Image.render_html inner) n
       = "<img src=" +:+ dq +:+ dq +:+ extra_args +:+ " />")
  /\ (Py.truthy (eval Image.get_image_src_link n) = true ->
      eval (Image.render_text inner) n
      = if Py.truthy (eval Image.get_alt_text n)
        then eval Image.get_image_src_link n
             +:+ " (" +:+ eval Image.get_alt_text n +:+ ")"
        else eval Image.get_image_src_link n).
Proof.
  split.
  - intros Hsrc. split.
    + unfold eval at 1, Image.render_text, bind.
      rewrite get_image_src_link_run. cbn [self]. by rewrite Hsrc.
    + destruct (image_render_html_run n inner) as (a & w & h & E & _).
      exists ((a +:+ w) +:+ h). by rewrite E, Hsrc.
  - intros Hsrc. unfold eval at 1, Image.render_text, bind.
    rewrite get_image_src_link_run. cbn [self]. rewrite Hsrc.
    by rewrite get_alt_text_run.
Qed.

End RenderedImage.

Lemma image_render_text_examples :
  let missing := node "img" [("alt", "a cat")] "javascript:alert(1)" in
  let present := node "img" [("alt", "a cat")] "http://a.example/cat.png" in
  eval (Image.render_text (H := Std.services) "inner") missing = "inner"
  /\ eval (Image.render_text (H := Std.services) "inner") present
     = "http://a.example/cat.png (a cat)".
Proof.
  intros missing present. split.
  - apply (proj1 (image_render_text_fallback (H := Std.services) missing "inner")).
    reflexivity.
  - apply (proj2 (image_render_text_fallback (H := Std.services) present "inner")).
    reflexivity.
Defined.

Lemma quote_plus_cons (c : ascii) (r : string) :
  Url.quote_plus (String c r)
  = (if Ascii.eqb c " " then "+"
     else if Url.always_safe c then String c EmptyString
     else if (Py.code c <? 128)%N then Url.percent (Py.code c)
     else Url.percent (192 + Py.code c / 64) +:+ Url.percent (128 + Py.code c mod 64))
    +:+ Url.quote_plus r.
Proof. reflexivity. Qed.

Lemma quote_plus_char_safe (c : ascii) :
  Py.all_chars url_safe
    (if Ascii.eqb c " " then "+"
     else if Url.always_safe c then String c EmptyString
     else if (Py.code c <? 128)%N then Url.percent (Py.code c)
     else Url.percent (192 + Py.code c / 64) +:+ Url.percent (128 + Py.code c mod 64))
  = true.
Proof. destruct c as [[] [] [] [] [] [] [] []]; vm_compute; reflexivity. Qed.

Lemma quote_plus_safe (s : string) : Py.all_chars url_safe (Url.quote_plus s) = true.
Proof.
  induction s as [|c r IH]; [done|].
  by rewrite quote_plus_cons, all_chars_append, quote_plus_char_safe, IH.
Qed.

Section RenderedYoutube.
Context `{Services}.

(** X8: a youtube node renders either as its inner content, unchanged, in
    HTML and in text, or as the embed and the link of an identifier made
    only of letters, digits and the characters [_.-~+%]: what
    [quote_plus] lets through. No other character of the URL reaches the
    [src] of the [iframe]. *)
Theorem youtube_embed_id_safe (n : TreeNode) (inner : string) :
  (eval (Youtube.render_html inner) n = inner
   /\ eval (Youtube.render_text inner) n = inner)
  \/ exists video_id,
      Py.all_chars url_safe video_id = true
      /\ eval (Youtube.render_html inner) n
         = Youtube.integration_html_template "560" "315" video_id
      /\ eval (Youtube.render_text inner) n = "https://youtu.be/" +:+ video_id.
Proof.
  rewrite youtube_render_html_eval, youtube_render_text_eval.
  destruct (Py.truthy _); [|by left].
  right. eexists. split; [apply quote_plus_safe|]. by split.
Qed.

End RenderedYoutube.

(** ** Further properties: cleaning the content twice *)

Lemma splitlines_cons (c : ascii) (r : string) :
  Py.splitlines (String c r)
  = if Py.is_linebreak c then
      EmptyString ::
        match r with
        | String d r' =>
            if Ascii.eqb c "013" && Ascii.eqb d "010" then Py.splitlines r'
            else Py.splitlines r
        | EmptyString => []
        end
    else match Py.splitlines r with
         | h :: t => String c h :: t
         | [] => [String c EmptyString]
         end.
Proof. reflexivity. Qed.

Lemma splitlines_no_linebreak (s : string) :
  Forall (fun l => Py.all_chars (fun c => negb (Py.is_linebreak c)) l = true)
    (Py.splitlines s)
  /\ Forall (fun l => Py.all_chars (fun c => negb (Py.is_linebreak c)) l = true)
       (Py.splitlines (match s with String _ r => r | EmptyString => EmptyString end)).
Proof.
  induction s as [|c r [IH IHtail]]; [by split|].
  split; [|done]. rewrite splitlines_cons.
  destruct (Py.is_linebreak c) eqn:B.
  - constructor; [done|]. destruct r as [|d r']; [done|].
    by destruct (Ascii.eqb c "013" && Ascii.eqb d "010").
  - destruct (Py.splitlines r) as [|h t]; constructor; try done.
    + cbn. by rewrite B.
    + inversion IH; subst. cbn. rewrite B. done.
    + by inversion IH.
Qed.

Lemma splitlines_line_then (l r : string) :
  Py.all_chars (fun c => negb (Py.is_linebreak c)) l = true ->
  Py.splitlines (l +:+ nl +:+ r) = l :: Py.splitlines r.
Proof.
  induction l as [|c l IH]; intros Hl.
  - change (EmptyString +:+ nl +:+ r) with (String "010" r).
    rewrite splitlines_cons. by destruct r.
  - cbn [Py.all_chars] in Hl. apply andb_true_iff in Hl as [Hc Hl].
    rewrite append_cons, splitlines_cons.
    apply negb_true_iff in Hc. rewrite Hc. by rewrite (IH Hl).
Qed.

Lemma splitlines_single (l : string) :
  Py.all_chars (fun c => negb (Py.is_linebreak c)) l = true ->
  Py.truthy l = true ->
  Py.splitlines l = [l].
Proof.
  induction l as [|c l IH]; [done|]. intros Hl _.
  cbn [Py.all_chars] in Hl. apply andb_true_iff in Hl as [Hc Hl].
  apply negb_true_iff in Hc. rewrite splitlines_cons, Hc.
  destruct l as [|d l]; [done|]. by rewrite (IH Hl).
Qed.

Lemma join_cons2 (sep x y : string) (rest : list string) :
  Py.join sep (x :: y :: rest) = x +:+ sep +:+ Py.join sep (y :: rest).
Proof. reflexivity. Qed.

Lemma blank_empty_line (l : string) : blank l = false -> Py.truthy l = true.
Proof. by destruct l. Qed.

(** Joining lines with line feeds and splitting again gives the lines back,
    when no line holds a line boundary and the last line is not empty. *)
Lemma splitlines_join (lines : list string) :
  Forall (fun l => Py.all_chars (fun c => negb (Py.is_linebreak c)) l = true) lines ->
  ends_non_blank lines ->
  Py.splitlines (Py.join nl lines) = lines.
Proof.
  induction lines as [|x lines IH]; [done|]. intros Hall Hend.
  inversion Hall as [|? ? Hx Hrest]; subst.
  destruct lines as [|y rest].
  - destruct Hend as [Hnil|Hlast]; [done|].
    cbn in Hlast. apply splitlines_single; [done|]. by apply blank_empty_line.
  - rewrite join_cons2, (splitlines_line_then _ _ Hx). f_equal.
    apply IH; [done|]. destruct Hend as [Hnil|Hlast]; [done|]. by right.
Qed.

Lemma pop_leading_blank_id (lines : list string) :
  starts_non_blank lines -> CodeBlock.pop_leading_blank lines = lines.
Proof.
  destruct lines as [|l rest]; [done|]. cbn. intros Hl.
  by rewrite truthy_strip, Hl.
Qed.

Lemma pop_trailing_blank_id (fuel : nat) (lines : list string) :
  ends_non_blank lines -> CodeBlock.pop_trailing_blank fuel lines = lines.
Proof.
  intros [->|Hlast]; [by destruct fuel|].
  destruct fuel; [done|].
  destruct (decide (lines = [])) as [->|Hne]; [done|].
  by rewrite (pop_trailing_blank_step _ _ Hne), truthy_strip, Hlast.
Qed.

(** X12: cleaning is idempotent: the cleaned content of a node, taken as
    the content of a node, is its own cleaned content, line for line; the
    lines kept hold no line boundary. *)
Theorem get_cleaned_content_idempotent (n m : TreeNode) :
  content m = eval CodeBlock.get_cleaned_content n ->
  eval CodeBlock.get_cleaned_content_lines m = eval CodeBlock.get_cleaned_content_lines n
  /\ eval CodeBlock.get_cleaned_content m = eval CodeBlock.get_cleaned_content n
  /\ Forall (fun l => Py.all_chars (fun c => negb (Py.is_linebreak c)) l = true)
       (eval CodeBlock.get_cleaned_content_lines n).
Proof.
  unfold eval, CodeBlock.get_cleaned_content_lines, CodeBlock.get_cleaned_content, asks.
  cbn [fst self]. intros ->.
  destruct (cleaned_lines_spec (content n)) as (pre & post & E & _ & _ & Hs & He).
  set (kept := CodeBlock.cleaned_lines (content n)) in *.
  assert (Hkept : Forall (fun l => Py.all_chars (fun c => negb (Py.is_linebreak c)) l
                                   = true) kept).
  { pose proof (proj1 (splitlines_no_linebreak (content n))) as Hall.
    rewrite E in Hall. apply Forall_app in Hall as [_ Hall].
    by apply Forall_app in Hall as [Hall _]. }
  assert (Hagain : CodeBlock.cleaned_lines (Py.join nl kept) = kept).
  { unfold CodeBlock.cleaned_lines. rewrite (splitlines_join _ Hkept He).
    rewrite (pop_leading_blank_id _ Hs). by apply pop_trailing_blank_id. }
  by rewrite Hagain.
Qed.

Lemma get_cleaned_content_twice_example :
  let n := node "code" [] (nl +:+ "  a" +:+ nl +:+ nl +:+ " b" +:+ nl +:+ " " +:+ nl) in
  let m := node "code" [] ("  a" +:+ nl +:+ nl +:+ " b") in
  eval CodeBlock.get_cleaned_content m = eval CodeBlock.get_cleaned_content n.
Proof.
  intros n m. apply (get_cleaned_content_idempotent n m). reflexivity.
Defined.

(** ** Further properties: the rendering hooks and the node *)

Ltac oblivious_hook :=
  repeat first
    [ apply oblivious_get_highlight_lines
    | apply oblivious_get_start_line_number
    | apply oblivious_get_language_name
    | apply oblivious_get_image_src_link
    | apply oblivious_get_img_size
    | apply oblivious_get_youtube_video_id
    | apply oblivious_bind; [|intros]
    | apply oblivious_ret
    | apply oblivious_set_error_message
    | apply oblivious_attr_or_empty
    | apply oblivious_asks; intros ? [];
      simpl; rewrite ?get_attribute_value_with_error; reflexivity
    | match goal with
      | |- Oblivious (match ?x with _ => _ end) => destruct x
      | |- Oblivious (if ?x then _ else _) => destruct x
      end ].

Section RenderingHooks.
Context `{Services}.

Lemma oblivious_render_with lexer figure_id nofollow :
  Oblivious (CodeBlock.render_with lexer figure_id nofollow).
Proof.
  unfold CodeBlock.render_with, CodeBlock.get_cleaned_content, CodeBlock.get_filename,
    CodeBlock.get_source_link_url.
  oblivious_hook.
Qed.

Lemma oblivious_codeblock_render_html cls inner nofollow :
  Oblivious (CodeBlock.render_html cls inner nofollow).
Proof.
  unfold CodeBlock.render_html, CodeBlock.get_figure_id.
  apply oblivious_bind; [oblivious_hook | intros figure_id].
  apply oblivious_bind; [apply oblivious_get_language_name | intros language].
  destruct (get_lexer_by_name language _); [apply oblivious_render_with|].
  destruct (get_lexer_by_name _ _); [apply oblivious_render_with | apply oblivious_ret].
Qed.

Lemma oblivious_codeblock_render_text inner : Oblivious (CodeBlock.render_text inner).
Proof.
  unfold CodeBlock.render_text, CodeBlock.render_text_lines, CodeBlock.get_figure_id,
    CodeBlock.get_filename, CodeBlock.get_source_link_url,
    CodeBlock.get_cleaned_content_lines.
  oblivious_hook.
Qed.

Lemma oblivious_image_render_html inner : Oblivious (Image.render_html inner).
Proof.
  unfold Image.render_html, Image.get_alt_text, Image.get_img_width,
    Image.get_img_height.
  oblivious_hook.
Qed.

Lemma image_render_text_run inner (s : State) :
  Image.render_text inner s = (eval (Image.render_text inner) (self s), s).
Proof.
  unfold eval, Image.render_text, bind. rewrite !get_image_src_link_run. cbn [self].
  by destruct (Py.truthy _).
Qed.

(** X9: no rendering hook changes the name, the attributes, the content or
    the children of the node; the hooks of the youtube and collapse nodes and
    the text hook of the image leave the whole node as it is, error message
    included. *)
Theorem render_hooks_keep_node (cls : CodeBlock.Class) (collapse : Collapse.Class)
  (n : TreeNode) (inner : string) (nofollow : bool) :
  let kept (after : TreeNode) :=
    name after = name n /\ attrs after = attrs n
    /\ content after = content n /\ children after = children n in
  kept (exec (CodeBlock.render_html cls inner nofollow) n)
  /\ kept (exec (CodeBlock.render_text inner) n)
  /\ kept (exec (Image.render_html inner) n)
  /\ exec (Image.render_text inner) n = n
  /\ exec (Youtube.render_html inner) n = n
  /\ exec (Youtube.render_text inner) n = n
  /\ exec (Collapse.render_html collapse inner) n = n
  /\ exec (Collapse.render_text collapse inner) n = n.
Proof.
  intros kept. unfold kept.
  pose proof (oblivious_shape _ (oblivious_codeblock_render_html cls inner nofollow) n)
    as (? & ? & ? & ? & _).
  pose proof (oblivious_shape _ (oblivious_codeblock_render_text inner) n)
    as (? & ? & ? & ? & _).
  pose proof (oblivious_shape _ (oblivious_image_render_html inner) n)
    as (? & ? & ? & ? & _).
  repeat split; try done.
  unfold exec. by rewrite image_render_text_run.
Qed.

End RenderingHooks.

(** ** Further properties: the listing of a code block and its messages *)

Section CodeBlockRendering.
Context `{Services}.

Lemma oblivious_run {A : Type} (m : M A) (w : list string) (n : TreeNode) :
  Oblivious m ->
  m (mkState (write_all w n) w)
  = (eval m n, mkState (write_all (w ++ trace m n) n) (w ++ trace m n)).
Proof.
  intros Hm. rewrite (Hm (mkState _ _)). cbn [self assigned].
  rewrite erase_write_all, <- (oblivious_eval _ Hm n), <- (oblivious_trace _ Hm n).
  by rewrite write_all_app.
Qed.

Lemma oblivious_run_start {A : Type} (m : M A) (n : TreeNode) :
  Oblivious m ->
  m (mkState n []) = (eval m n, mkState (write_all (trace m n) n) (trace m n)).
Proof.
  intros Hm. rewrite <- (write_all_nil n) at 1. by rewrite (oblivious_run m [] n Hm).
Qed.

Lemma bind_run {A B : Type} (m : M A) (k : A -> M B) (s s' : State) (a : A) :
  m s = (a, s') -> bind m k s = k a s'.
Proof. intros Hm. unfold bind. by rewrite Hm. Qed.

Lemma enumerate_lookup {A : Type} (start : Z) (xs : list A) (i : nat) (x : A) :
  xs !! i = Some x -> Py.enumerate start xs !! i = Some (start + Z.of_nat i, x).
Proof.
  revert start i. induction xs as [|y xs IH]; intros start [|i] Hx; try done.
  - injection Hx as ->. cbn. do 2 f_equal. lia.
  - change (Py.enumerate start (y :: xs) !! S i)
      with (Py.enumerate (start + 1) xs !! i).
    rewrite (IH (start + 1) i Hx). do 2 f_equal. lia.
Qed.

Lemma enumerate_length {A : Type} (start : Z) (xs : list A) :
  length (Py.enumerate start xs) = length xs.
Proof. revert start. induction xs as [|y xs IH]; intros start; cbn; by rewrite ?IH. Qed.

(** The list of lines [render_text] joins, and the state it leaves. *)
Lemma render_text_lines_run (inner : string) (n : TreeNode) :
  exists caption,
    (length caption <= 1)%nat
    /\ CodeBlock.render_text_lines inner (mkState n [])
       = (List.map (CodeBlock.text_line (eval CodeBlock.get_highlight_lines n))
            (Py.enumerate (eval CodeBlock.get_start_line_number n)
               (eval CodeBlock.get_cleaned_content_lines n))
          ++ caption ++ [EmptyString],
          let w := trace CodeBlock.get_start_line_number n
                   ++ trace CodeBlock.get_highlight_lines n in
          mkState (write_all w n) w).
Proof.
  unfold CodeBlock.render_text_lines.
  erewrite (bind_run CodeBlock.get_figure_id) by reflexivity.
  erewrite (bind_run CodeBlock.get_filename) by reflexivity.
  erewrite (bind_run CodeBlock.get_source_link_url) by reflexivity.
  erewrite (bind_run CodeBlock.get_start_line_number)
    by apply (oblivious_run_start _ n oblivious_get_start_line_number).
  erewrite (bind_run CodeBlock.get_highlight_lines)
    by apply (oblivious_run _ _ n oblivious_get_highlight_lines).
  erewrite (bind_run CodeBlock.get_cleaned_content_lines) by reflexivity.
  unfold ret. cbn [self content write_all with_error].
  fold (eval CodeBlock.get_cleaned_content_lines n).
  set (body := List.map _ _).
  match goal with
  | |- context [Py.truthy ?f && Py.truthy ?l] =>
      destruct (Py.truthy f); destruct (Py.truthy l); cbn [andb]
  end;
    first [ eexists [_]; split; [cbn; lia | by rewrite <- app_assoc]
          | exists []; split; [cbn; lia | done] ].
Qed.

(** X13: in the text listing of a code block, the line of the cleaned
    content at position [i] is listed at position [i] with the number
    [start + i], where [start] is the first line number: the number, then
    [>] when it is one of the highlight lines and [.] otherwise, padded to
    four characters, a space, and the line with each tabulation replaced by
    four spaces.  The list ends with an empty line, after at most one
    caption line. *)
Theorem render_text_numbering (n : TreeNode) (inner : string) :
  let lines := eval (CodeBlock.render_text_lines inner) n in
  let cleaned := eval CodeBlock.get_cleaned_content_lines n in
  let start := eval CodeBlock.get_start_line_number n in
  let hl_lines := eval CodeBlock.get_highlight_lines n in
  (forall (i : nat) (line : string),
      cleaned !! i = Some line ->
      lines !! i
      = Some (Py.ljust 4
                (Py.str_of_int (start + Z.of_nat i)
                 +:+ (if existsb (Z.eqb (start + Z.of_nat i)) hl_lines
                      then ">" else "."))
              +:+ " " +:+ Py.replace_char "009" "    " line))
  /\ List.last lines "?" = EmptyString
  /\ (length cleaned + 1 <= length lines <= length cleaned + 2)%nat
  /\ eval (CodeBlock.render_text inner) n = Py.join nl lines.
Proof.
  cbv zeta.
  destruct (render_text_lines_run inner n) as (caption & Hcap & Hrun).
  assert (Hlines : eval (CodeBlock.render_text_lines inner) n
                   = List.map (CodeBlock.text_line (eval CodeBlock.get_highlight_lines n))
                       (Py.enumerate (eval CodeBlock.get_start_line_number n)
                          (eval CodeBlock.get_cleaned_content_lines n))
                     ++ caption ++ [EmptyString])
    by (unfold eval at 1; by rewrite Hrun).
  assert (Htext : eval (CodeBlock.render_text inner) n
                  = Py.join nl (eval (CodeBlock.render_text_lines inner) n))
    by (unfold eval, CodeBlock.render_text, bind;
        by destruct (CodeBlock.render_text_lines inner _)).
  rewrite Htext, Hlines.
  set (hl_lines := eval CodeBlock.get_highlight_lines n).
  set (start := eval CodeBlock.get_start_line_number n).
  set (cleaned := eval CodeBlock.get_cleaned_content_lines n).
  split; [|split; [|split]].
  - intros i line Hline.
    rewrite lookup_app_l
      by (rewrite length_map, enumerate_length; by apply lookup_lt_Some in Hline).
    change (List.map ?f ?l) with (f <$> l).
    rewrite list_lookup_fmap, (enumerate_lookup _ _ _ _ Hline).
    cbn [fmap option_fmap option_map].
    unfold CodeBlock.text_line.
    by destruct (existsb _ _).
  - by rewrite app_assoc, last_last.
  - rewrite !length_app, length_map, enumerate_length. cbn [length]. lia.
  - done.
Qed.

Lemma render_with_run lexer style figure_id nofollow (n : TreeNode) :
  get_style_by_name CodeBlock.pygments_css_style_name = Some style ->
  exists html,
    CodeBlock.render_with lexer figure_id nofollow (mkState n [])
    = (Some html,
       let w := trace CodeBlock.get_highlight_lines n
                ++ trace CodeBlock.get_start_line_number n in
       mkState (write_all w n) w).
Proof.
  intros Hstyle. unfold CodeBlock.render_with. rewrite Hstyle.
  erewrite (bind_run CodeBlock.get_highlight_lines)
    by apply (oblivious_run_start _ n oblivious_get_highlight_lines).
  erewrite (bind_run CodeBlock.get_start_line_number)
    by apply (oblivious_run _ _ n oblivious_get_start_line_number).
  erewrite (bind_run CodeBlock.get_cleaned_content) by reflexivity.
  erewrite (bind_run CodeBlock.get_filename) by reflexivity.
  erewrite (bind_run CodeBlock.get_source_link_url) by reflexivity.
  unfold ret.
  repeat match goal with
         | |- context [if ?b then _ else _] => destruct b
         end; eauto.
Qed.

(** X10: rendering a code block assigns the messages of the line checks
    again: with a lexer for the default language and the default style at
    hand, [render_html] assigns the messages of the highlight lines and then
    those of the first line number, and [render_text] assigns the same
    messages in the other order; neither assigns a message for the
    language. *)
Theorem codeblock_render_messages (cls : CodeBlock.Class) (n : TreeNode)
  (inner : string) (nofollow : bool) (lexer : Lexer) (style : Style) :
  get_lexer_by_name CodeBlock.default_language_name (Some CodeBlock.tab_size)
  = Some lexer ->
  get_style_by_name CodeBlock.pygments_css_style_name = Some style ->
  trace (CodeBlock.render_html cls inner nofollow) n
  = trace CodeBlock.get_highlight_lines n ++ trace CodeBlock.get_start_line_number n
  /\ trace (CodeBlock.render_text inner) n
     = trace CodeBlock.get_start_line_number n ++ trace CodeBlock.get_highlight_lines n.
Proof.
  intros Hlexer Hstyle. split.
  - unfold trace at 1, CodeBlock.render_html. unfold bind at 1.
    change (CodeBlock.get_figure_id (mkState n []))
      with (eval CodeBlock.get_figure_id n, mkState n []).
    cbv beta iota. unfold bind at 1. rewrite get_language_name_run. cbn [self].
    destruct (get_lexer_by_name (eval (CodeBlock.get_language_name cls) n) _) as [lx|].
    + by destruct (render_with_run lx style (eval CodeBlock.get_figure_id n) nofollow n
                     Hstyle) as (html & ->).
    + rewrite Hlexer.
      by destruct (render_with_run lexer style (eval CodeBlock.get_figure_id n)
                     nofollow n Hstyle) as (html & ->).
  - unfold trace at 1, CodeBlock.render_text. unfold bind at 1.
    by destruct (render_text_lines_run inner n) as (caption & _ & ->).
Qed.

End CodeBlockRendering.

Lemma render_text_numbering_example :
  let n := node "code" [("linenostart", "5"); ("hl_lines", "6")]
             ("a" +:+ nl +:+ String "009" "b") in
  eval (CodeBlock.render_text_lines (H := Std.services) "") n !! 1%nat
  = Some "6>       b".
Proof.
  intros n.
  apply (proj1 (render_text_numbering (H := Std.services) n "") 1%nat (String "009" "b")).
  reflexivity.
Defined.

Lemma codeblock_render_messages_example :
  let n := node "code" [("hl_lines", "-1"); ("linenostart", "x")] "a" in
  trace (CodeBlock.render_html (H := Std.services) CodeBlock.CodeBlockTreeNode "" true) n
  = ["Line number must be positive"; "x is not a number"]
  /\ trace (CodeBlock.render_text (H := Std.services) "") n
     = ["x is not a number"; "Line number must be positive"].
Proof.
  intros n.
  exact (codeblock_render_messages (H := Std.services) CodeBlock.CodeBlockTreeNode
           n "" true "text" "default" eq_refl eq_refl).
Defined.

(** ** Further properties: code blocks of a fixed language *)

Section FixedLanguage.
Context `{Services}.

(** X11: [generate_fixed_code_block_type_cls] fails exactly when the
    language is empty; the class it makes has that language for every node,
    whatever the attributes of the node are; its canonical tag name is the
    one given, or the language when none or an empty one is given; and when
    the language has a lexer, its [sanitize_node] assigns no message for the
    language. *)
Theorem fixed_code_block_class (language : string) (canonical : option string)
  (aliases : option (list string)) :
  (CodeBlock.generate_fixed_code_block_type_cls language canonical aliases = None
   <-> language = EmptyString)
  /\ forall cls,
      CodeBlock.generate_fixed_code_block_type_cls language canonical aliases = Some cls ->
      (forall n, eval (CodeBlock.get_language_name cls) n = language)
      /\ (default EmptyString canonical = EmptyString ->
          CodeBlock.canonical_tag_name cls = language)
      /\ (default EmptyString canonical <> EmptyString ->
          CodeBlock.canonical_tag_name cls = default EmptyString canonical)
      /\ (forall lexer n, get_lexer_by_name language None = Some lexer ->
                          language_messages cls n = []).
Proof.
  unfold CodeBlock.generate_fixed_code_block_type_cls.
  destruct language as [|c r]; cbn [Py.truthy].
  - split; [done|]. by intros cls.
  - split; [split; discriminate|].
    intros cls [= <-]. split; [done|]. split; [|split].
    + by destruct canonical as [[|? ?]|].
    + by destruct canonical as [[|? ?]|].
    + intros lexer n Hlexer. unfold language_messages, eval, CodeBlock.get_language_name.
      cbn. by rewrite Hlexer.
Qed.

End FixedLanguage.

Lemma fixed_code_block_class_example :
  let cls := CodeBlock.mkClass "python" [] (Some "python") in
  CodeBlock.generate_fixed_code_block_type_cls "python" None None = Some cls
  /\ eval (CodeBlock.get_language_name (H := Std.services) cls)
       (node "python" [("language", "klingon"); ("python", "c")] "x = 1")
     = "python".
Proof.
  intros cls. split; [reflexivity|].
  apply (proj1 (proj2 (fixed_code_block_class (H := Std.services) "python" None None)
                  cls eq_refl)).
Defined.

(** ** Further examples of validation *)

Lemma codeblock_sanitize_node_clean_example :
  let n := node "code" [("hl_lines", "1, 2"); ("linenostart", "5");
                        ("language", "python")] "x = 1" in
  exec (CodeBlock.sanitize_node (H := Std.services) CodeBlock.CodeBlockTreeNode []) n = n.
Proof.
  intros n.
  apply (proj2 (codeblock_sanitize_node_messages (H := Std.services)
                  CodeBlock.CodeBlockTreeNode [] n)); reflexivity.
Defined.

Lemma image_sanitize_node_missing_source_example :
  let n := node "img" [("width", "x")] "" in
  error_message (exec (Image.sanitize_node (H := Std.services) []) n)
  = "Missing or erroneous source URL".
Proof.
  intros n.
  apply (proj2 (image_sanitize_node_messages (H := Std.services) [] n)). reflexivity.
Defined.

(** ** The problem a validation leaves on the node *)




Section LastProblem.
Context `{Services}.





End LastProblem.

